(** * UTM planner: geofence model, 4D A* planner, conflict detection and
      resolution, mission orchestrator.

    A shallow embedding of [config.py], [models.py], [geofencing.py],
    [pathfinding.py], [conflict_detection.py] and the request handler of
    [main.py], followed by the properties established about them.

    Modelling conventions.
    - A Python [float] is an exact rational ([Q]): no rounding, no overflow,
      no NaN.  Python floats are binary, so where a property depends on
      which decimal values a float can take, the predicate [dyadic] says it.
    - [float('inf')] only occurs as a geofence cost; costs live in [xfloat].
    - The functions of Python's [math] module are not part of the
      repository: they are the fields of the class [MathLib].
    - An exception is a value of [exn]; a function that can raise returns a
      [result].  Pydantic's range validation of [Position] fields and
      float division by zero are not modelled (both can only raise; every
      divisor in the modelled code is a non-zero constant, guarded by the
      code, or [cos] of a latitude).
    - [uuid.uuid4()] and [time.time()] are inputs of the function that
      calls them. *)

From Stdlib Require Import QArith Qround Qabs ZArith List String Bool Lia Lqa.
From Stdlib Require Import Znumtheory Zpow_facts Permutation.
From Stdlib Require Import DecimalString.
Import ListNotations.

Local Open Scope string_scope.
Local Open Scope list_scope.
Local Open Scope Q_scope.

(* ------------------------------------------------------------------ *)
(** ** Python values *)

(** Exceptions the modelled code raises. *)
Inductive exn : Type :=
| IndexError
| KeyError (key : string)
| NameError (name : string)
| HTTPException (status_code : Z) (detail : string).

Inductive result (A : Type) : Type :=
| Ok (a : A)
| Raise (e : exn).
Arguments Ok {A} a.
Arguments Raise {A} e.

Definition bind {A B : Type} (r : result A) (k : A -> result B) : result B :=
  match r with
  | Ok a => k a
  | Raise e => Raise e
  end.

Notation "x <- r ;; k" := (bind r (fun x => k))
  (at level 61, r at next level, right associativity).

(** Comparisons of floats, as booleans. *)
Definition Qltb (x y : Q) : bool := negb (Qle_bool y x).
Definition Qleb (x y : Q) : bool := Qle_bool x y.
Definition Qeqb (x y : Q) : bool := Qeq_bool x y.

(** [max(a, b)] and [min(a, b)] of two arguments: the first one wins a tie. *)
Definition py_max (a b : Q) : Q := if Qltb a b then b else a.
Definition py_min (a b : Q) : Q := if Qltb b a then b else a.

(** [x % m] on floats, for a positive [m]: the result has the sign of [m]. *)
Definition py_mod (x m : Q) : Q := x - m * inject_Z (Qfloor (x / m)).

(** Round half to even, the rule of [round]. *)
Definition round_half_even (q : Q) : Z :=
  let fl := Qfloor q in
  let r := q - inject_Z fl in
  if Qltb r (1 # 2) then fl
  else if Qltb (1 # 2) r then (fl + 1)%Z
  else if Z.even fl then fl else (fl + 1)%Z.

(** [round(x, ndigits)] for [ndigits >= 0]. *)
Definition py_round (x : Q) (ndigits : nat) : Q :=
  let scale := inject_Z (10 ^ Z.of_nat ndigits) in
  inject_Z (round_half_even (x * scale)) / scale.

(** A binary floating-point value: an integer over a power of two. *)
Definition dyadic (q : Q) : Prop :=
  exists (m : Z) (e : nat), q == inject_Z m / inject_Z (2 ^ Z.of_nat e).

(** Floats extended with [float('inf')]. *)
Inductive xfloat : Type :=
| Fin (q : Q)
| PInf.

Definition xmax (a b : xfloat) : xfloat :=
  match a, b with
  | Fin x, Fin y => Fin (py_max x y)
  | Fin _, PInf => PInf
  | PInf, _ => PInf
  end.

(** [min(l, key=key)]: the first element whose key is minimal.  Python raises
    ValueError on an empty list; every list of the configuration is
    non-empty, and the model answers [0] there. *)
Fixpoint min_by_key_from (key : Q -> Q) (best : Q) (l : list Q) : Q :=
  match l with
  | [] => best
  | x :: rest =>
      if Qltb (key x) (key best) then min_by_key_from key x rest
      else min_by_key_from key best rest
  end.

Definition min_by_key (key : Q -> Q) (l : list Q) : Q :=
  match l with
  | [] => 0
  | x :: rest => min_by_key_from key x rest
  end.

(** A [dict] with string keys, in insertion order. *)
Definition dict (V : Type) : Type := list (string * V).

Fixpoint dict_find {V : Type} (d : dict V) (k : string) : option V :=
  match d with
  | [] => None
  | (k', v) :: rest => if String.eqb k' k then Some v else dict_find rest k
  end.

(** [d.get(k, default)]. *)
Definition dict_get {V : Type} (d : dict V) (k : string) (default : V) : V :=
  match dict_find d k with
  | Some v => v
  | None => default
  end.

(** [d[k]]. *)
Definition dict_item {V : Type} (d : dict V) (k : string) : result V :=
  match dict_find d k with
  | Some v => Ok v
  | None => Raise (KeyError k)
  end.

(** [d[k] = v]: an existing key keeps its place, a new key goes last. *)
Fixpoint dict_set {V : Type} (d : dict V) (k : string) (v : V) : dict V :=
  match d with
  | [] => [(k, v)]
  | (k', v') :: rest =>
      if String.eqb k' k then (k, v) :: rest else (k', v') :: dict_set rest k v
  end.

(** [str(n)], and what an f-string prints for [{n}], for an integer
    [n >= 0]. *)
Definition str_of_nat (n : nat) : string :=
  NilEmpty.string_of_uint (Nat.to_uint n).

Definition str_of_Z (z : Z) : string :=
  NilEmpty.string_of_uint (N.to_uint (Z.to_N z)).

(** [s.rjust(4, '0')] for a string of decimal digits. *)
Definition zero_pad_4 (digits : string) : string :=
  match String.length digits with
  | 1%nat => ("000" ++ digits)%string
  | 2%nat => ("00" ++ digits)%string
  | 3%nat => ("0" ++ digits)%string
  | _ => digits
  end.

(** What an f-string prints for [{x:.4f}]: the value rounded half to even
    at the fourth decimal, a minus sign for a negative value (also when
    the digits printed are all zero), at least one digit before the
    point. *)
Definition format_4f (x : Q) : string :=
  let scaled := round_half_even (Qabs x * 10000) in
  ((if Qltb x 0 then "-" else "")
   ++ str_of_Z (scaled / 10000) ++ "."
   ++ zero_pad_4 (str_of_Z (scaled mod 10000)))%string.

(** The functions of Python's [math] module that the code calls. *)
Class MathLib : Type := {
  math_sin : Q -> Q;
  math_cos : Q -> Q;
  math_sqrt : Q -> Q;
  math_atan2 : Q -> Q -> Q;
  math_radians : Q -> Q;
  math_degrees : Q -> Q
}.

(* ------------------------------------------------------------------ *)
(** ** config.py *)

Module Config.

Definition DRONE_MAX_SPEED : Q := 15.
Definition DRONE_MIN_SPEED : Q := 3.
Definition DRONE_CRUISE_SPEED : Q := 10.
Definition DRONE_MAX_ALTITUDE : Q := 120.
Definition DRONE_MIN_ALTITUDE : Q := 20.
Definition DRONE_BATTERY_CAPACITY : Q := 3600.
Definition DRONE_POWER_CONSUMPTION : Q := 200.

Definition GRID_RESOLUTION : Q := 100.
Definition ALTITUDE_LAYERS : list Q := [30; 50; 70; 90; 110].

Definition HORIZONTAL_SEPARATION : Q := 30.
Definition VERTICAL_SEPARATION : Q := 15.
Definition TIME_RESOLUTION : Q := 5.
Definition LOOKAHEAD_TIME : Q := 300.

Definition DIRECTION_ALTITUDE_MAP : dict (list Q) :=
  [ ("NORTH", [50; 90]);
    ("SOUTH", [50; 90]);
    ("EAST", [30; 70; 110]);
    ("WEST", [30; 70; 110]) ].

(** A geofence zone: the entries of [NO_FLY_ZONES] and [SENSITIVE_AREAS]. *)
Record Zone : Type := mkZone {
  name : string;
  polygon : list (Q * Q);
  cost_multiplier : xfloat
}.

Definition NO_FLY_ZONES : list Zone :=
  [ mkZone "Airport Restricted Airspace"
      [ (37.6213, -122.3790); (37.6213, -122.3590);
        (37.6013, -122.3590); (37.6013, -122.3790) ]
      PInf;
    mkZone "Military Base"
      [ (37.7850, -122.4100); (37.7850, -122.3900);
        (37.7650, -122.3900); (37.7650, -122.4100) ]
      PInf ].

Definition SENSITIVE_AREAS : list Zone :=
  [ mkZone "Elementary School Zone"
      [ (37.7700, -122.4350); (37.7700, -122.4300);
        (37.7650, -122.4300); (37.7650, -122.4350) ]
      (Fin 5);
    mkZone "Hospital Complex"
      [ (37.7550, -122.4050); (37.7550, -122.4000);
        (37.7500, -122.4000); (37.7500, -122.4050) ]
      (Fin 4);
    mkZone "Residential High Density"
      [ (37.7400, -122.4200); (37.7400, -122.4100);
        (37.7300, -122.4100); (37.7300, -122.4200) ]
      (Fin 2) ].

Record Bounds : Type := mkBounds {
  min_lat : Q;
  max_lat : Q;
  min_lon : Q;
  max_lon : Q
}.

Definition OPERATIONAL_AREA : Bounds :=
  mkBounds 37.60 37.80 (-122.45) (-122.35).

End Config.

(* ------------------------------------------------------------------ *)
(** ** models.py *)

Module Models.

Inductive DroneStatus : Type :=
| IDLE
| ASSIGNED
| EN_ROUTE_PICKUP
| AT_PICKUP
| EN_ROUTE_DELIVERY
| AT_DELIVERY
| RETURNING
| EMERGENCY
| MAINTENANCE.

Definition DroneStatus_eqb (a b : DroneStatus) : bool :=
  match a, b with
  | IDLE, IDLE | ASSIGNED, ASSIGNED | EN_ROUTE_PICKUP, EN_ROUTE_PICKUP
  | AT_PICKUP, AT_PICKUP | EN_ROUTE_DELIVERY, EN_ROUTE_DELIVERY
  | AT_DELIVERY, AT_DELIVERY | RETURNING, RETURNING
  | EMERGENCY, EMERGENCY | MAINTENANCE, MAINTENANCE => true
  | _, _ => false
  end.

Record Position : Type := mkPosition {
  latitude : Q;
  longitude : Q;
  altitude : Q
}.

(** [Position4D] extends [Position] with a timestamp. *)
Record Position4D : Type := mkPosition4D {
  pos : Position;
  timestamp : Q
}.

Record Waypoint : Type := mkWaypoint {
  position : Position;
  eta : Q;
  speed : Q;
  heading : Q
}.

Record Trajectory : Type := mkTrajectory {
  waypoints : list Waypoint;
  total_distance : Q;
  total_time : Q;
  estimated_battery_usage : Q
}.

Record Telemetry : Type := mkTelemetry {
  t_drone_id : string;
  t_position : Position;
  velocity : Q * Q * Q;
  battery_level : Q;
  t_status : DroneStatus;
  t_timestamp : Q
}.

Record Mission : Type := mkMission {
  mission_id : string;
  drone_id : option string;
  pickup_location : Position;
  delivery_location : Position;
  created_at : Q;
  assigned_at : option Q;
  completed_at : option Q;
  status : DroneStatus;
  trajectory : option Trajectory
}.

Record DeliveryRequest : Type := mkDeliveryRequest {
  pickup : Position;
  delivery : Position
}.

(** [conflict_position] is declared a [Position]; the detector stores the
    interpolated [Position4D] sample (a subclass instance) in it. *)
Record ConflictAlert : Type := mkConflictAlert {
  conflict_id : string;
  drone_1_id : string;
  drone_2_id : string;
  conflict_position : Position4D;
  conflict_time : Q;
  severity : string;
  resolution_action : option string
}.

End Models.

(* ------------------------------------------------------------------ *)
(** ** geofencing.py *)

Module Geofencing.
Import Config Models.

(** One edge [(p1, p2)] of the ray-casting loop.  [xinters] is assigned only
    when [p1_lon != p2_lon]; the two enclosing tests on [lon] cannot both
    hold otherwise, so it is always bound where it is read. *)
Definition crosses (lat lon : Q) (p1 p2 : Q * Q) : bool :=
  let '(p1_lat, p1_lon) := p1 in
  let '(p2_lat, p2_lon) := p2 in
  if Qltb (py_min p1_lon p2_lon) lon then
    if Qleb lon (py_max p1_lon p2_lon) then
      if Qleb lat (py_max p1_lat p2_lat) then
        let xinters :=
          (lon - p1_lon) * (p2_lat - p1_lat) / (p2_lon - p1_lon) + p1_lat in
        Qeqb p1_lat p2_lat || Qleb lat xinters
      else false
    else false
  else false.

(** The loop [for i in range(1, n + 1)]: [rest] holds [polygon[i % n]] for
    the remaining values of [i]. *)
Fixpoint ray_cast (lat lon : Q) (p1 : Q * Q) (rest : list (Q * Q))
    (inside : bool) : bool :=
  match rest with
  | [] => inside
  | p2 :: rest' =>
      ray_cast lat lon p2 rest'
        (if crosses lat lon p1 p2 then negb inside else inside)
  end.

(** [polygon[0]] raises IndexError on an empty polygon; every polygon of
    the configuration has four vertices, and the model answers [false]. *)
Definition point_in_polygon (point : Q * Q) (polygon : list (Q * Q)) : bool :=
  let '(lat, lon) := point in
  match polygon with
  | [] => false
  | p0 :: tl => ray_cast lat lon p0 (tl ++ [p0]) false
  end.

Definition is_in_no_fly_zone (position : Position) : bool :=
  let point := (latitude position, longitude position) in
  existsb (fun zone => point_in_polygon point (polygon zone)) NO_FLY_ZONES.

Definition get_position_cost_multiplier (position : Position) : xfloat :=
  let point := (latitude position, longitude position) in
  if existsb (fun zone => point_in_polygon point (polygon zone)) NO_FLY_ZONES
  then PInf
  else
    fold_left
      (fun max_multiplier area =>
         if point_in_polygon point (polygon area)
         then xmax max_multiplier (cost_multiplier area)
         else max_multiplier)
      SENSITIVE_AREAS (Fin 1).

Definition get_safe_altitude_for_direction (heading current_altitude : Q) : Q :=
  let heading := py_mod heading 360 in
  let direction :=
    if Qleb 315 heading || Qltb heading 45 then "NORTH"
    else if Qleb 45 heading && Qltb heading 135 then "EAST"
    else if Qleb 135 heading && Qltb heading 225 then "SOUTH"
    else "WEST" in
  let available_altitudes :=
    dict_get DIRECTION_ALTITUDE_MAP direction ALTITUDE_LAYERS in
  min_by_key (fun alt => Qabs (alt - current_altitude)) available_altitudes.

Definition is_within_operational_area (position : Position) : bool :=
  let bounds := OPERATIONAL_AREA in
  if Qltb (latitude position) (min_lat bounds)
     || Qltb (max_lat bounds) (latitude position) then false
  else if Qltb (longitude position) (min_lon bounds)
          || Qltb (max_lon bounds) (longitude position) then false
  else true.

(** [point_in_polygon] as the interpreter runs it.  [xinters] is a local
    variable: it keeps its value from one turn of the loop to the next, and
    reading it before its first assignment raises UnboundLocalError, a
    subclass of NameError.  [p1_lat == p2_lat or lat <= xinters] reads it
    only when the first test fails. *)
Definition crosses_checked (lat lon : Q) (p1 p2 : Q * Q)
    (xinters : option Q) (inside : bool) : result (option Q * bool) :=
  let '(p1_lat, p1_lon) := p1 in
  let '(p2_lat, p2_lon) := p2 in
  if Qltb (py_min p1_lon p2_lon) lon then
    if Qleb lon (py_max p1_lon p2_lon) then
      if Qleb lat (py_max p1_lat p2_lat) then
        let xinters :=
          if negb (Qeqb p1_lon p2_lon)
          then Some ((lon - p1_lon) * (p2_lat - p1_lat) / (p2_lon - p1_lon)
                     + p1_lat)
          else xinters in
        if Qeqb p1_lat p2_lat then Ok (xinters, negb inside)
        else
          match xinters with
          | Some x => Ok (xinters, if Qleb lat x then negb inside else inside)
          | None => Raise (NameError "xinters")
          end
      else Ok (xinters, inside)
    else Ok (xinters, inside)
  else Ok (xinters, inside).

Fixpoint ray_cast_checked (lat lon : Q) (p1 : Q * Q) (rest : list (Q * Q))
    (xinters : option Q) (inside : bool) : result bool :=
  match rest with
  | [] => Ok inside
  | p2 :: rest' =>
      state <- crosses_checked lat lon p1 p2 xinters inside ;;
      ray_cast_checked lat lon p2 rest' (fst state) (snd state)
  end.

Definition point_in_polygon_checked (point : Q * Q) (polygon : list (Q * Q))
    : result bool :=
  let '(lat, lon) := point in
  match polygon with
  | [] => Raise IndexError
  | p0 :: tl => ray_cast_checked lat lon p0 (tl ++ [p0]) None false
  end.

(** The loop of [is_trajectory_valid] from index [i] on. *)
Fixpoint is_trajectory_valid_from (i : nat) (waypoints : list Position)
    : bool * string :=
  match waypoints with
  | [] => (true, "Trajectory is valid")
  | waypoint :: rest =>
      if is_in_no_fly_zone waypoint then
        (false,
         ("Waypoint " ++ str_of_nat i ++ " violates no-fly zone at ("
          ++ format_4f (latitude waypoint) ++ ", "
          ++ format_4f (longitude waypoint) ++ ")")%string)
      else is_trajectory_valid_from (S i) rest
  end.

Definition is_trajectory_valid (waypoints : list Position) : bool * string :=
  is_trajectory_valid_from 0 waypoints.

End Geofencing.

(* ------------------------------------------------------------------ *)
(** ** heapq (the open set of the planner)

    [heappush] and [heappop] of Python's [heapq], on a list ordered by
    [lt] (the elements' [__lt__]).  Every index the loops read is in range;
    [nth] is given the item being sifted as its default value. *)

Module Heapq.
Section Heap.
Context {A : Type} (lt : A -> A -> bool).

(** [heap[i] = x] for [i] in range. *)
Fixpoint list_set (heap : list A) (i : nat) (x : A) : list A :=
  match heap, i with
  | [], _ => []
  | _ :: tl, O => x :: tl
  | y :: tl, S i' => y :: list_set tl i' x
  end.

(** The loop of [_siftdown]: [pos] strictly decreases, so [pos]
    iterations are enough. *)
Fixpoint siftdown_loop (fuel : nat) (heap : list A) (startpos pos : nat)
    (newitem : A) : list A :=
  match fuel with
  | O => list_set heap pos newitem
  | S fuel' =>
      if (startpos <? pos)%nat then
        let parentpos := Nat.shiftr (pos - 1)%nat 1%nat in
        let parent := nth parentpos heap newitem in
        if lt newitem parent
        then siftdown_loop fuel' (list_set heap pos parent) startpos
               parentpos newitem
        else list_set heap pos newitem
      else list_set heap pos newitem
  end.

Definition siftdown (heap : list A) (startpos pos : nat) : list A :=
  match nth_error heap pos with
  | Some newitem => siftdown_loop pos heap startpos pos newitem
  | None => heap
  end.

(** The loop of [_siftup]: [pos] strictly increases below [endpos]. *)
Fixpoint siftup_loop (fuel : nat) (heap : list A) (endpos pos : nat)
    (newitem : A) : list A * nat :=
  match fuel with
  | O => (heap, pos)
  | S fuel' =>
      let childpos := (2 * pos + 1)%nat in
      if (childpos <? endpos)%nat then
        let rightpos := (childpos + 1)%nat in
        let childpos :=
          if (rightpos <? endpos)%nat
             && negb (lt (nth childpos heap newitem)
                         (nth rightpos heap newitem))
          then rightpos else childpos in
        siftup_loop fuel' (list_set heap pos (nth childpos heap newitem))
          endpos childpos newitem
      else (heap, pos)
  end.

Definition siftup (heap : list A) (pos : nat) : list A :=
  match nth_error heap pos with
  | Some newitem =>
      let '(heap', pos') :=
        siftup_loop (List.length heap) heap (List.length heap) pos newitem in
      siftdown (list_set heap' pos' newitem) pos pos'
  | None => heap
  end.

Definition heappush (heap : list A) (item : A) : list A :=
  let heap := heap ++ [item] in
  siftdown heap 0 (List.length heap - 1)%nat.

(** [None] stands for the IndexError of [heap.pop()] on an empty heap. *)
Definition heappop (heap : list A) : option (A * list A) :=
  match rev heap with
  | [] => None
  | lastelt :: rest_rev =>
      match rev rest_rev with
      | [] => Some (lastelt, [])
      | returnitem :: tl =>
          Some (returnitem, siftup (lastelt :: tl) 0%nat)
      end
  end.

End Heap.
End Heapq.

(* ------------------------------------------------------------------ *)
(** ** pathfinding.py *)

Module Pathfinding.
Import Config Models.

(** The fields of a [Node4D] object.  A node is never mutated after it has
    been pushed on the open set, so a parent reference is a value. *)
Inductive Node4D : Type := mkNode {
  lat : Q;
  lon : Q;
  alt : Q;
  time : Q;
  parent : option Node4D;
  g : Q;
  h : Q;
  f : Q
}.

(** [Node4D.__lt__] *)
Definition node_lt (self other : Node4D) : bool := Qltb (f self) (f other).

(** [Node4D.__eq__] *)
Definition node_eq (self other : Node4D) : bool :=
  Qltb (Qabs (lat self - lat other)) 0.0001
  && Qltb (Qabs (lon self - lon other)) 0.0001
  && Qltb (Qabs (alt self - alt other)) 5.

(** The tuple [Node4D.__hash__] hashes.  The hash of a tuple is taken to be
    the tuple: equal tuples, and only they, have equal hashes. *)
Definition hash_key (self : Node4D) : Q * Q * Q :=
  (py_round (lat self) 4, py_round (lon self) 4, py_round (alt self) 0).

Definition key_eqb (k1 k2 : Q * Q * Q) : bool :=
  let '(a1, b1, c1) := k1 in
  let '(a2, b2, c2) := k2 in
  Qeqb a1 a2 && Qeqb b1 b2 && Qeqb c1 c2.

(** What a [set] of nodes compares: the hashes, then [__eq__]. *)
Definition same_node (entry node : Node4D) : bool :=
  key_eqb (hash_key entry) (hash_key node) && node_eq entry node.

(** [node in closed_set] *)
Definition set_mem (node : Node4D) (closed_set : list Node4D) : bool :=
  existsb (fun entry => same_node entry node) closed_set.

(** [closed_set.add(node)] *)
Definition set_add (node : Node4D) (closed_set : list Node4D) : list Node4D :=
  if set_mem node closed_set then closed_set else closed_set ++ [node].

Definition to_position (self : Node4D) : Position :=
  mkPosition (lat self) (lon self) (alt self).

Section Planner.
Context {M : MathLib}.

Definition haversine_distance (lat1 lon1 lat2 lon2 : Q) : Q :=
  let R := 6371000 in
  let phi1 := math_radians lat1 in
  let phi2 := math_radians lat2 in
  let delta_phi := math_radians (lat2 - lat1) in
  let delta_lambda := math_radians (lon2 - lon1) in
  let a := math_sin (delta_phi / 2) ^ 2
           + math_cos phi1 * math_cos phi2
             * math_sin (delta_lambda / 2) ^ 2 in
  let c := 2 * math_atan2 (math_sqrt a) (math_sqrt (1 - a)) in
  R * c.

Definition distance_3d (lat1 lon1 alt1 lat2 lon2 alt2 : Q) : Q :=
  let horizontal := haversine_distance lat1 lon1 lat2 lon2 in
  let vertical := Qabs (alt2 - alt1) in
  math_sqrt (horizontal ^ 2 + vertical ^ 2).

Definition calculate_heading (lat1 lon1 lat2 lon2 : Q) : Q :=
  let lat1_rad := math_radians lat1 in
  let lat2_rad := math_radians lat2 in
  let delta_lon := math_radians (lon2 - lon1) in
  let x := math_sin delta_lon * math_cos lat2_rad in
  let y := math_cos lat1_rad * math_sin lat2_rad
           - math_sin lat1_rad * math_cos lat2_rad * math_cos delta_lon in
  let heading := math_degrees (math_atan2 x y) in
  py_mod (heading + 360) 360.

(** The body of the two nested loops of [get_neighbors] for one direction
    and one altitude option. *)
Definition neighbor_at (node : Node4D) (dlat dlon alt' : Q)
    : option Node4D :=
  let new_lat := lat node + dlat in
  let new_lon := lon node + dlon in
  if negb (Geofencing.is_within_operational_area
             (mkPosition new_lat new_lon alt'))
  then None
  else
    let dist :=
      distance_3d (lat node) (lon node) (alt node) new_lat new_lon alt' in
    let speed :=
      if Qltb 5 (Qabs (alt' - alt node))
      then DRONE_CRUISE_SPEED * 0.8 else DRONE_CRUISE_SPEED in
    let time_increment := dist / speed in
    let new_time := time node + time_increment in
    Some (mkNode new_lat new_lon alt' new_time (Some node) 0 0 0).

Definition get_neighbors (node : Node4D) (goal_lat goal_lon : Q)
    : list Node4D :=
  let heading := calculate_heading (lat node) (lon node) goal_lat goal_lon in
  let optimal_altitude :=
    Geofencing.get_safe_altitude_for_direction heading (alt node) in
  let lat_step := GRID_RESOLUTION / 111320 in
  let lon_step :=
    GRID_RESOLUTION / (111320 * math_cos (math_radians (lat node))) in
  let directions :=
    [ (lat_step, 0); (lat_step, lon_step); (0, lon_step);
      (- lat_step, lon_step); (- lat_step, 0); (- lat_step, - lon_step);
      (0, - lon_step); (lat_step, - lon_step) ] in
  let altitude_options :=
    if Qltb 10 (Qabs (optimal_altitude - alt node))
    then [alt node; optimal_altitude; (alt node + optimal_altitude) / 2]
    else [alt node] in
  flat_map
    (fun d : Q * Q =>
       let '(dlat, dlon) := d in
       flat_map
         (fun alt' =>
            match neighbor_at node dlat dlon alt' with
            | Some neighbor => [neighbor]
            | None => []
            end)
         altitude_options)
    directions.

Definition heuristic (node : Node4D) (goal : Position) : Q :=
  let dist := distance_3d (lat node) (lon node) (alt node)
                (latitude goal) (longitude goal) (altitude goal) in
  dist / DRONE_MAX_SPEED.

(** The walk along the parent references, goal first. *)
Fixpoint parent_chain (node : Node4D) : list Node4D :=
  node :: match parent node with
          | Some p => parent_chain p
          | None => []
          end.

Definition reconstruct_path (node : Node4D) : list Node4D :=
  rev (parent_chain node).

(** The waypoints built by the loop of [nodes_to_trajectory]. *)
Fixpoint nodes_waypoints (nodes : list Node4D) : list Waypoint :=
  match nodes with
  | [] => []
  | node :: rest =>
      let '(speed, heading) :=
        match rest with
        | next_node :: _ =>
            let distance :=
              distance_3d (lat node) (lon node) (alt node)
                (lat next_node) (lon next_node) (alt next_node) in
            let time_diff := time next_node - time node in
            (if Qltb 0 time_diff then distance / time_diff
             else DRONE_CRUISE_SPEED,
             calculate_heading (lat node) (lon node)
               (lat next_node) (lon next_node))
        | [] => (0, 0)
        end in
      mkWaypoint (to_position node) (time node)
        (py_min speed DRONE_MAX_SPEED) heading
      :: nodes_waypoints rest
  end.

(** [total_distance] as the same loop accumulates it. *)
Fixpoint nodes_distance (nodes : list Node4D) (total_distance : Q) : Q :=
  match nodes with
  | node :: ((next_node :: _) as rest) =>
      nodes_distance rest
        (total_distance
         + distance_3d (lat node) (lon node) (alt node)
             (lat next_node) (lon next_node) (alt next_node))
  | _ => total_distance
  end.

Definition nodes_to_trajectory (nodes : list Node4D) : result Trajectory :=
  match nodes, rev nodes with
  | first :: _, last :: _ =>
      let waypoints := nodes_waypoints nodes in
      let total_distance := nodes_distance nodes 0 in
      let total_time := time last - time first in
      let battery_usage :=
        total_time * DRONE_POWER_CONSUMPTION / DRONE_BATTERY_CAPACITY * 100 in
      Ok (mkTrajectory waypoints total_distance total_time battery_usage)
  | _, _ => Raise IndexError
  end.

(** The body of [for neighbor in get_neighbors(...)]. *)
Definition visit_neighbor (goal : Position) (current : Node4D)
    (closed_set : list Node4D) (open_set : list Node4D)
    (neighbor : Node4D) : list Node4D :=
  if set_mem neighbor closed_set then open_set
  else
    let move_cost :=
      distance_3d (lat current) (lon current) (alt current)
        (lat neighbor) (lon neighbor) (alt neighbor) in
    match Geofencing.get_position_cost_multiplier (to_position neighbor) with
    | PInf => open_set
    | Fin cost_multiplier =>
        let move_cost := move_cost * cost_multiplier in
        let tentative_g := g current + move_cost in
        let h' := heuristic neighbor goal in
        Heapq.heappush node_lt open_set
          (mkNode (lat neighbor) (lon neighbor) (alt neighbor)
             (time neighbor) (Some current) tentative_g h'
             (tentative_g + h'))
    end.

Definition goal_reached (goal : Position) (current : Node4D) : bool :=
  let goal_distance :=
    distance_3d (lat current) (lon current) (alt current)
      (latitude goal) (longitude goal) (altitude goal) in
  Qltb goal_distance (GRID_RESOLUTION * 1.5).

(** How the [while] loop of [plan_trajectory] ends. *)
Inductive outcome : Type :=
| Found (current : Node4D)
| OpenSetEmpty
| IterationLimit.

(** The [while open_set and iterations < max_iterations] loop.  [fuel] is
    [max_iterations - iterations]; [popped] lists the nodes popped so
    far, last first, so [iterations] is its length. *)
Fixpoint search (fuel : nat) (goal : Position)
    (open_set closed_set popped : list Node4D)
    : outcome * list Node4D :=
  match Heapq.heappop node_lt open_set with
  | None => (OpenSetEmpty, popped)
  | Some (current, open_set) =>
      match fuel with
      | O => (IterationLimit, popped)
      | S fuel' =>
          if goal_reached goal current
          then (Found current, current :: popped)
          else
            let closed_set := set_add current closed_set in
            search fuel' goal
              (fold_left (visit_neighbor goal current closed_set)
                 (get_neighbors current (latitude goal) (longitude goal))
                 open_set)
              closed_set (current :: popped)
      end
  end.

Definition max_iterations : nat := Z.to_nat 200000.

(** The start node, with [h] and [f] as set before the loop starts. *)
Definition start_node (start goal : Position) (start_time : Q) : Node4D :=
  let initial_heading :=
    calculate_heading (latitude start) (longitude start)
      (latitude goal) (longitude goal) in
  let start_altitude :=
    Geofencing.get_safe_altitude_for_direction initial_heading
      (altitude start) in
  let node :=
    mkNode (latitude start) (longitude start) start_altitude start_time
      None 0 0 0 in
  let h0 := heuristic node goal in
  mkNode (latitude start) (longitude start) start_altitude start_time
    None 0 h0 h0.

(** The search of [plan_trajectory]: its outcome and the nodes popped. *)
Definition run_search (start goal : Position) (start_time : Q)
    : outcome * list Node4D :=
  search max_iterations goal
    (Heapq.heappush node_lt [] (start_node start goal start_time)) [] [].

Definition plan_trajectory (start goal : Position) (start_time : Q)
    : result (option Trajectory) :=
  match fst (run_search start goal start_time) with
  | Found current =>
      trajectory <- nodes_to_trajectory (reconstruct_path current) ;;
      Ok (Some trajectory)
  | OpenSetEmpty | IterationLimit => Ok None
  end.

End Planner.
End Pathfinding.

(* ------------------------------------------------------------------ *)
(** ** conflict_detection.py *)

Module ConflictDetection.
Import Config Models.

(** The names bound at the top level of the module: its imports
    ([from typing import ...], [from models import Trajectory, Waypoint,
    Position4D, ConflictAlert], [import config], ...) and its two classes. *)
Definition module_globals : list string :=
  [ "List"; "Tuple"; "Optional";
    "Trajectory"; "Waypoint"; "Position4D"; "ConflictAlert";
    "config"; "pathfinding"; "time"; "uuid";
    "ConflictDetector"; "ConflictResolver" ].

(** Looking a global name up: NameError when the module does not bind it
    (none of the names tried is a builtin). *)
Definition lookup_global (name : string) : result unit :=
  if existsb (String.eqb name) module_globals then Ok tt
  else Raise (NameError name).

(** [waypoints[0]] and [waypoints[-1]]. *)
Definition first_waypoint (ws : list Waypoint) : result Waypoint :=
  match ws with
  | w :: _ => Ok w
  | [] => Raise IndexError
  end.

Definition last_waypoint (ws : list Waypoint) : result Waypoint :=
  match rev ws with
  | w :: _ => Ok w
  | [] => Raise IndexError
  end.

Section Detector.
Context {M : MathLib}.

(** The loop [for i in range(len(waypoints) - 1)] of
    [interpolate_position], on the waypoints from index [i] on. *)
Fixpoint interpolate_from (ws : list Waypoint) (time : Q)
    : option Position4D :=
  match ws with
  | w1 :: ((w2 :: _) as rest) =>
      if Qleb (eta w1) time && Qleb time (eta w2) then
        let t_ratio :=
          if negb (Qeqb (eta w2) (eta w1))
          then (time - eta w1) / (eta w2 - eta w1) else 0 in
        let lat := latitude (position w1)
                   + t_ratio * (latitude (position w2)
                                - latitude (position w1)) in
        let lon := longitude (position w1)
                   + t_ratio * (longitude (position w2)
                                - longitude (position w1)) in
        let alt := altitude (position w1)
                   + t_ratio * (altitude (position w2)
                                - altitude (position w1)) in
        Some (mkPosition4D (mkPosition lat lon alt) time)
      else interpolate_from rest time
  | _ => None
  end.

Definition interpolate_position (trajectory : Trajectory) (time : Q)
    : option Position4D :=
  interpolate_from (waypoints trajectory) time.

Definition assess_severity (horizontal_dist vertical_dist : Q) : string :=
  if Qltb horizontal_dist (HORIZONTAL_SEPARATION / 2) then "critical"
  else if Qltb horizontal_dist (HORIZONTAL_SEPARATION * 0.75) then "warning"
  else "minor".

(** The separation test of one tick: the first trajectory's sample and
    the two distances when both samples exist and the minima are
    violated. *)
Definition violation (traj_1 traj_2 : Trajectory) (current_time : Q)
    : option (Position4D * Q * Q) :=
  match interpolate_position traj_1 current_time,
        interpolate_position traj_2 current_time with
  | Some pos_1, Some pos_2 =>
      let horizontal_dist :=
        Pathfinding.haversine_distance
          (latitude (pos pos_1)) (longitude (pos pos_1))
          (latitude (pos pos_2)) (longitude (pos pos_2)) in
      let vertical_dist :=
        Qabs (altitude (pos pos_1) - altitude (pos pos_2)) in
      if Qltb horizontal_dist HORIZONTAL_SEPARATION
         && Qltb vertical_dist VERTICAL_SEPARATION
      then Some (pos_1, horizontal_dist, vertical_dist)
      else None
  | _, _ => None
  end.

(** The loop [while current_time <= t_end].  The outer [None] is a run
    out of [fuel]; [sampling_fuel] is shown to be enough. *)
Fixpoint sample (fuel : nat) (uuid4 drone_1_id drone_2_id : string)
    (traj_1 traj_2 : Trajectory) (t_end current_time : Q)
    : option (option ConflictAlert) :=
  match fuel with
  | O => None
  | S fuel' =>
      if Qleb current_time t_end then
        match violation traj_1 traj_2 current_time with
        | Some (pos_1, horizontal_dist, vertical_dist) =>
            Some (Some (mkConflictAlert uuid4 drone_1_id drone_2_id pos_1
                          current_time
                          (assess_severity horizontal_dist vertical_dist)
                          None))
        | None =>
            sample fuel' uuid4 drone_1_id drone_2_id traj_1 traj_2 t_end
              (current_time + TIME_RESOLUTION)
        end
      else Some None
  end.

(** One more than the number of ticks in [[t_start, t_end]]. *)
Definition sampling_fuel (t_start t_end : Q) : nat :=
  S (S (Z.to_nat (Qfloor ((t_end - t_start) / TIME_RESOLUTION)))).

(** [uuid4] is the value [str(uuid.uuid4())] has if a conflict is found. *)
Definition check_trajectory_conflict (uuid4 : string)
    (drone_1_id : string) (traj_1 : Trajectory)
    (drone_2_id : string) (traj_2 : Trajectory)
    : result (option ConflictAlert) :=
  first_1 <- first_waypoint (waypoints traj_1) ;;
  first_2 <- first_waypoint (waypoints traj_2) ;;
  let t_start := py_max (eta first_1) (eta first_2) in
  last_1 <- last_waypoint (waypoints traj_1) ;;
  last_2 <- last_waypoint (waypoints traj_2) ;;
  let t_end := py_min (eta last_1) (eta last_2) in
  if Qleb t_end t_start then Ok None
  else
    match sample (sampling_fuel t_start t_end) uuid4 drone_1_id drone_2_id
            traj_1 traj_2 t_end t_start with
    | Some found => Ok found
    | None => Ok None
    end.

(** The body of the loop of [adjust_speed] for one waypoint.  [prev_wp] is
    [new_waypoints[i - 1]], and [None] when [i = 0]. *)
Definition adjust_waypoint (conflict : ConflictAlert)
    (prev_wp : option Waypoint) (waypoint : Waypoint) : Waypoint :=
  let time_shift := TIME_RESOLUTION * 3 in
  if Qltb (eta waypoint) (conflict_time conflict) then
    let reduction_factor := 0.7 in
    let new_speed :=
      py_max (speed waypoint * reduction_factor) DRONE_MIN_SPEED in
    let new_eta :=
      match prev_wp with
      | Some prev_wp =>
          let distance :=
            Pathfinding.distance_3d
              (latitude (position prev_wp)) (longitude (position prev_wp))
              (altitude (position prev_wp))
              (latitude (position waypoint)) (longitude (position waypoint))
              (altitude (position waypoint)) in
          eta prev_wp + distance / new_speed
      | None => eta waypoint
      end in
    mkWaypoint (position waypoint) new_eta new_speed (heading waypoint)
  else
    let new_eta :=
      match prev_wp with
      | Some prev_wp =>
          let distance :=
            Pathfinding.distance_3d
              (latitude (position prev_wp)) (longitude (position prev_wp))
              (altitude (position prev_wp))
              (latitude (position waypoint)) (longitude (position waypoint))
              (altitude (position waypoint)) in
          eta prev_wp + distance / DRONE_CRUISE_SPEED
      | None => eta waypoint + time_shift
      end in
    mkWaypoint (position waypoint) new_eta DRONE_CRUISE_SPEED
      (heading waypoint).

(** The waypoints the loop appends, given the last one appended. *)
Fixpoint adjust_waypoints (conflict : ConflictAlert)
    (prev_wp : option Waypoint) (ws : list Waypoint) : list Waypoint :=
  match ws with
  | [] => []
  | waypoint :: rest =>
      let new_wp := adjust_waypoint conflict prev_wp waypoint in
      new_wp :: adjust_waypoints conflict (Some new_wp) rest
  end.

Definition adjust_speed (trajectory : Trajectory) (conflict : ConflictAlert)
    : result Trajectory :=
  let new_waypoints := adjust_waypoints conflict None (waypoints trajectory) in
  last <- last_waypoint new_waypoints ;;
  first <- first_waypoint new_waypoints ;;
  let total_time := eta last - eta first in
  let battery_usage :=
    total_time * DRONE_POWER_CONSUMPTION / DRONE_BATTERY_CAPACITY * 100 in
  Ok (mkTrajectory new_waypoints (total_distance trajectory) total_time
        battery_usage).

(** The loop of [adjust_altitude].  Its body calls [Position], a name
    the module must look up. *)
Fixpoint shift_waypoints (ws : list Waypoint) : result (list Waypoint) :=
  match ws with
  | [] => Ok []
  | waypoint :: rest =>
      let altitude_shift := VERTICAL_SEPARATION + 5 in
      let new_altitude :=
        py_min (altitude (position waypoint) + altitude_shift)
          DRONE_MAX_ALTITUDE in
      _ <- lookup_global "Position" ;;
      let new_position :=
        mkPosition (latitude (position waypoint))
          (longitude (position waypoint)) new_altitude in
      new_waypoints <- shift_waypoints rest ;;
      Ok (mkWaypoint new_position (eta waypoint) (speed waypoint)
            (heading waypoint) :: new_waypoints)
  end.

Definition adjust_altitude (trajectory : Trajectory)
    (conflict : ConflictAlert) : result Trajectory :=
  new_waypoints <- shift_waypoints (waypoints trajectory) ;;
  Ok (mkTrajectory new_waypoints (total_distance trajectory)
        (total_time trajectory) (estimated_battery_usage trajectory)).

(** The detector is asked with the ids ["test_1"] and ["test_2"]; the
    alert itself is dropped, so its [uuid4] does not matter. *)
Definition trajectories_conflict (traj_1 traj_2 : Trajectory)
    : result bool :=
  conflict <- check_trajectory_conflict "" "test_1" traj_1 "test_2" traj_2 ;;
  Ok (match conflict with Some _ => true | None => false end).

Definition resolve_conflict (conflict : ConflictAlert)
    (traj_1 traj_2 : Trajectory) : result (Trajectory * string) :=
  modified_traj <- adjust_speed traj_1 conflict ;;
  clash <- trajectories_conflict modified_traj traj_2 ;;
  if negb clash then Ok (modified_traj, "speed_adjustment")
  else
    modified_traj <- adjust_altitude traj_1 conflict ;;
    clash <- trajectories_conflict modified_traj traj_2 ;;
    if negb clash then Ok (modified_traj, "altitude_change")
    else Ok (traj_1, "replan_required").

(** The attribute of a [ConflictDetector]. *)
Record ConflictDetector : Type := mkConflictDetector {
  active_conflicts : list ConflictAlert
}.

(** The inner loop of [detect_conflicts], [for j in range(i + 1, ...)]:
    [later] holds the ids [drone_ids[j]] still to come.  [uuid4 k] is the
    [k]-th value drawn from [uuid.uuid4()] during the call; one is drawn
    for each alert built, so the next one is numbered by the alerts
    collected so far. *)
Fixpoint detect_pairs (uuid4 : nat -> string) (trajectories : dict Trajectory)
    (drone_1 : string) (later : list string) (conflicts : list ConflictAlert)
    : result (list ConflictAlert) :=
  match later with
  | [] => Ok conflicts
  | drone_2 :: later' =>
      traj_1 <- dict_item trajectories drone_1 ;;
      traj_2 <- dict_item trajectories drone_2 ;;
      conflict <-
        check_trajectory_conflict (uuid4 (List.length conflicts))
          drone_1 traj_1 drone_2 traj_2 ;;
      detect_pairs uuid4 trajectories drone_1 later'
        match conflict with
        | Some c => conflicts ++ [c]
        | None => conflicts
        end
  end.

(** The outer loop, [for i in range(len(drone_ids))]. *)
Fixpoint detect_all (uuid4 : nat -> string) (trajectories : dict Trajectory)
    (drone_ids : list string) (conflicts : list ConflictAlert)
    : result (list ConflictAlert) :=
  match drone_ids with
  | [] => Ok conflicts
  | drone_1 :: later =>
      conflicts <- detect_pairs uuid4 trajectories drone_1 later conflicts ;;
      detect_all uuid4 trajectories later conflicts
  end.

(** [detect_conflicts]: what it returns and the detector afterwards.
    [self.active_conflicts] is assigned after the loops, so it keeps its
    value when one of the checks raises. *)
Definition detect_conflicts (uuid4 : nat -> string) (self : ConflictDetector)
    (trajectories : dict Trajectory)
    : result (list ConflictAlert) * ConflictDetector :=
  let drone_ids := map fst trajectories in
  match detect_all uuid4 trajectories drone_ids [] with
  | Ok conflicts => (Ok conflicts, mkConflictDetector conflicts)
  | Raise e => (Raise e, self)
  end.

End Detector.
End ConflictDetection.

(* ------------------------------------------------------------------ *)
(** ** main.py *)

Module Main.
Import Config Models.

(** [system_stats] *)
Record Stats : Type := mkStats {
  total_missions : Z;
  completed_missions : Z;
  conflicts_detected : Z;
  conflicts_resolved : Z;
  active_drones_count : Z
}.

(** What [manager.broadcast] is given. *)
Inductive Message : Type :=
| conflict_resolved (conflict : ConflictAlert) (resolution_method : string)
| mission_created (mission : Mission)
| telemetry_message (data : Telemetry)
| drone_registered (drone : Telemetry).

(** The global state of the server: its three tables and its counters,
    the messages broadcast so far, and the calls made to the planner so far
    (start, goal, start time), which the program itself does not record. *)
Record World : Type := mkWorld {
  active_drones : dict Telemetry;
  active_missions : dict Mission;
  flight_plans : dict Trajectory;
  system_stats : Stats;
  broadcasts : list Message;
  planner_calls : list (Position * Position * Q)
}.

Definition initial_world : World :=
  mkWorld [] [] [] (mkStats 0 0 0 0 0) [] [].

(** What one call of [create_delivery_request] reads from [uuid] and
    [time]: the eight hex digits of the mission id, the three clock
    readings, and the id of the alert found against the [k]-th flight
    plan. *)
Record Env : Type := mkEnv {
  uuid_hex : string;
  now_created : Q;
  now_assigned : Q;
  now_start : Q;
  conflict_uuid : nat -> string
}.

(** The JSON answers of [create_delivery_request]. *)
Inductive Response : Type :=
| Queued (mission_id : string)
| Assigned (mission_id drone_id : string) (trajectory : Trajectory)
    (conflicts_detected : nat).

(** A handler: it runs on the global state, and leaves it as it is at the
    point where an exception is raised. *)
Definition Handler (A : Type) : Type := World -> result A * World.

Definition ret {A : Type} (a : A) : Handler A := fun w => (Ok a, w).

Definition throw {A : Type} (e : exn) : Handler A := fun w => (Raise e, w).

Definition lift {A : Type} (r : result A) : Handler A := fun w => (r, w).

Definition andthen {A B : Type} (c : Handler A) (k : A -> Handler B)
    : Handler B :=
  fun w =>
    match c w with
    | (Ok a, w') => k a w'
    | (Raise e, w') => (Raise e, w')
    end.

Notation "x <~ c ;; k" := (andthen c (fun x => k))
  (at level 61, c at next level, right associativity).
Notation "c1 ;;; c2" := (andthen c1 (fun _ => c2))
  (at level 61, right associativity).

Definition read : Handler World := fun w => (Ok w, w).

Definition update (f : World -> World) : Handler unit :=
  fun w => (Ok tt, f w).

Definition broadcast (message : Message) : Handler unit :=
  update (fun w =>
    mkWorld (active_drones w) (active_missions w) (flight_plans w)
      (system_stats w) (broadcasts w ++ [message]) (planner_calls w)).

Definition set_active_drones (d : dict Telemetry) : Handler unit :=
  update (fun w =>
    mkWorld d (active_missions w) (flight_plans w) (system_stats w)
      (broadcasts w) (planner_calls w)).

Definition set_active_missions (d : dict Mission) : Handler unit :=
  update (fun w =>
    mkWorld (active_drones w) d (flight_plans w) (system_stats w)
      (broadcasts w) (planner_calls w)).

Definition set_flight_plans (d : dict Trajectory) : Handler unit :=
  update (fun w =>
    mkWorld (active_drones w) (active_missions w) d (system_stats w)
      (broadcasts w) (planner_calls w)).

Definition set_system_stats (s : Stats) : Handler unit :=
  update (fun w =>
    mkWorld (active_drones w) (active_missions w) (flight_plans w) s
      (broadcasts w) (planner_calls w)).

(** [system_stats['total_missions'] += 1] *)
Definition count_mission : Handler unit :=
  w <~ read ;;
  let s := system_stats w in
  set_system_stats
    (mkStats (total_missions s + 1) (completed_missions s)
       (conflicts_detected s) (conflicts_resolved s) (active_drones_count s)).

(** [system_stats['conflicts_detected'] += 1] *)
Definition count_detected : Handler unit :=
  w <~ read ;;
  let s := system_stats w in
  set_system_stats
    (mkStats (total_missions s) (completed_missions s)
       (conflicts_detected s + 1) (conflicts_resolved s)
       (active_drones_count s)).

(** [system_stats['conflicts_resolved'] += 1] *)
Definition count_resolved : Handler unit :=
  w <~ read ;;
  let s := system_stats w in
  set_system_stats
    (mkStats (total_missions s) (completed_missions s)
       (conflicts_detected s) (conflicts_resolved s + 1)
       (active_drones_count s)).

(** The loop that looks for an idle drone. *)
Fixpoint find_available_drone (drones : dict Telemetry) : option string :=
  match drones with
  | [] => None
  | (drone_id, telemetry) :: rest =>
      if DroneStatus_eqb (t_status telemetry) IDLE then Some drone_id
      else find_available_drone rest
  end.

(** [not available_drone]: [None] and the empty string are false. *)
Definition falsy (available_drone : option string) : bool :=
  match available_drone with
  | None => true
  | Some s => String.eqb s ""
  end.

Definition update_telemetry (telemetry : Telemetry) : Handler unit :=
  w <~ read ;;
  set_active_drones
    (dict_set (active_drones w) (t_drone_id telemetry) telemetry) ;;;
  broadcast (telemetry_message telemetry).

(** [now] is the reading of [time.time()]. *)
Definition register_drone (now : Q) (drone_id : string)
    (position : Position) : Handler unit :=
  w <~ read ;;
  match dict_find (active_drones w) drone_id with
  | Some _ => throw (HTTPException 400 "Drone already registered")
  | None =>
      let telemetry :=
        mkTelemetry drone_id position (0, 0, 0) 100 IDLE now in
      set_active_drones (dict_set (active_drones w) drone_id telemetry) ;;;
      w <~ read ;;
      let s := system_stats w in
      set_system_stats
        (mkStats (total_missions s) (completed_missions s)
           (conflicts_detected s) (conflicts_resolved s)
           (Z.of_nat (List.length (active_drones w)))) ;;;
      broadcast (drone_registered telemetry)
  end.

Definition get_drone (drone_id : string) : Handler Telemetry :=
  w <~ read ;;
  match dict_find (active_drones w) drone_id with
  | None => throw (HTTPException 404 "Drone not found")
  | Some telemetry => ret telemetry
  end.

Definition get_all_drones : Handler (list Telemetry) :=
  w <~ read ;;
  ret (map snd (active_drones w)).

Definition get_mission (mission_id : string) : Handler Mission :=
  w <~ read ;;
  match dict_find (active_missions w) mission_id with
  | None => throw (HTTPException 404 "Mission not found")
  | Some mission => ret mission
  end.

Definition get_all_missions : Handler (list Mission) :=
  w <~ read ;;
  ret (map snd (active_missions w)).

Section Handlers.
Context {M : MathLib}.

(** The collaborators of the request handler, [pathfinding.plan_trajectory]
    and [conflict_resolver.resolve_conflict], as it calls them. *)
Variable plan_trajectory :
  Position -> Position -> Q -> result (option Trajectory).
Variable resolve_conflict :
  ConflictAlert -> Trajectory -> Trajectory -> result (Trajectory * string).

(** A call of the planner, recorded in [planner_calls]. *)
Definition call_planner (start goal : Position) (start_time : Q)
    : Handler (option Trajectory) :=
  update (fun w =>
    mkWorld (active_drones w) (active_missions w) (flight_plans w)
      (system_stats w) (broadcasts w)
      (planner_calls w ++ [(start, goal, start_time)])) ;;;
  lift (plan_trajectory start goal start_time).

(** The loop of [detect_mission_conflicts] over [flight_plans.items()],
    from the [k]-th item on. *)
Fixpoint detect_from (env : Env) (k : nat) (plans : dict Trajectory)
    (new_drone_id : string) (new_trajectory : Trajectory)
    : result (list ConflictAlert) :=
  match plans with
  | [] => Ok []
  | (drone_id, trajectory) :: rest =>
      if negb (String.eqb drone_id new_drone_id) then
        conflict <-
          ConflictDetection.check_trajectory_conflict (conflict_uuid env k)
            new_drone_id new_trajectory drone_id trajectory ;;
        conflicts <- detect_from env (S k) rest new_drone_id new_trajectory ;;
        Ok (match conflict with
            | Some c => c :: conflicts
            | None => conflicts
            end)
      else detect_from env (S k) rest new_drone_id new_trajectory
  end.

Definition detect_mission_conflicts (env : Env) (new_drone_id : string)
    (new_trajectory : Trajectory) : Handler (list ConflictAlert) :=
  w <~ read ;;
  lift (detect_from env 0 (flight_plans w) new_drone_id new_trajectory).

(** The loop [for conflict in conflicts]; [trajectory] is
    [mission.trajectory]. *)
Fixpoint resolve_all (conflicts : list ConflictAlert)
    (trajectory : Trajectory) : Handler Trajectory :=
  match conflicts with
  | [] => ret trajectory
  | conflict :: rest =>
      w <~ read ;;
      reference <~ lift (dict_item (flight_plans w) (drone_2_id conflict)) ;;
      resolved <~ lift (resolve_conflict conflict trajectory reference) ;;
      let '(resolved_trajectory, method) := resolved in
      count_detected ;;;
      count_resolved ;;;
      broadcast (conflict_resolved conflict method) ;;;
      resolve_all rest resolved_trajectory
  end.

Definition create_delivery_request_with (env : Env)
    (request : DeliveryRequest) : Handler Response :=
  if negb (Geofencing.is_within_operational_area (pickup request)) then
    throw (HTTPException 400 "Pickup location outside operational area")
  else if negb (Geofencing.is_within_operational_area (delivery request))
  then
    throw (HTTPException 400 "Delivery location outside operational area")
  else if Geofencing.is_in_no_fly_zone (pickup request) then
    throw (HTTPException 400 "Pickup location is in a no-fly zone")
  else if Geofencing.is_in_no_fly_zone (delivery request) then
    throw (HTTPException 400 "Delivery location is in a no-fly zone")
  else
    let mission_id := ("mission_" ++ uuid_hex env)%string in
    let mission :=
      mkMission mission_id None (pickup request) (delivery request)
        (now_created env) None None IDLE None in
    w <~ read ;;
    let available := find_available_drone (active_drones w) in
    if falsy available then
      set_active_missions (dict_set (active_missions w) mission_id mission) ;;;
      count_mission ;;;
      ret (Queued mission_id)
    else
      let available_drone :=
        match available with Some d => d | None => "" end in
      drone <~ lift (dict_item (active_drones w) available_drone) ;;
      let current_position := t_position drone in
      let start_time := now_start env in
      trajectory_to_pickup <~
        call_planner current_position (pickup request) start_time ;;
      match trajectory_to_pickup with
      | None =>
          throw (HTTPException 500 "Could not plan path to pickup location")
      | Some trajectory_to_pickup =>
          last_pickup <~
            lift (ConflictDetection.last_waypoint
                    (waypoints trajectory_to_pickup)) ;;
          let pickup_arrival_time := eta last_pickup in
          trajectory_to_delivery <~
            call_planner (pickup request) (delivery request)
              (pickup_arrival_time + 30) ;;
          match trajectory_to_delivery with
          | None =>
              throw (HTTPException 500
                       "Could not plan path to delivery location")
          | Some trajectory_to_delivery =>
              let combined_waypoints :=
                waypoints trajectory_to_pickup
                ++ waypoints trajectory_to_delivery in
              let total_distance :=
                total_distance trajectory_to_pickup
                + total_distance trajectory_to_delivery in
              last_delivery <~
                lift (ConflictDetection.last_waypoint
                        (waypoints trajectory_to_delivery)) ;;
              first_pickup <~
                lift (ConflictDetection.first_waypoint
                        (waypoints trajectory_to_pickup)) ;;
              let total_time := eta last_delivery - eta first_pickup in
              let battery_usage :=
                estimated_battery_usage trajectory_to_pickup
                + estimated_battery_usage trajectory_to_delivery in
              let planned :=
                mkTrajectory combined_waypoints total_distance total_time
                  battery_usage in
              conflicts <~
                detect_mission_conflicts env available_drone planned ;;
              final <~ resolve_all conflicts planned ;;
              let mission :=
                mkMission mission_id (Some available_drone)
                  (pickup request) (delivery request) (now_created env)
                  (Some (now_assigned env)) None ASSIGNED (Some final) in
              w <~ read ;;
              set_active_missions
                (dict_set (active_missions w) mission_id mission) ;;;
              set_flight_plans
                (dict_set (flight_plans w) available_drone final) ;;;
              count_mission ;;;
              set_active_drones
                (dict_set (active_drones w) available_drone
                   (mkTelemetry (t_drone_id drone) (t_position drone)
                      (velocity drone) (battery_level drone) ASSIGNED
                      (t_timestamp drone))) ;;;
              broadcast (mission_created mission) ;;;
              ret (Assigned mission_id available_drone final
                     (List.length conflicts))
          end
      end.

(** The requests that change the state of the server. *)
Inductive Request : Type :=
| delivery_request (env : Env) (request : DeliveryRequest)
| telemetry_update (telemetry : Telemetry)
| registration (now : Q) (drone_id : string) (position : Position).

(** The state after a request, whether it is answered or fails. *)
Definition serve_with (w : World) (r : Request) : World :=
  match r with
  | delivery_request env request =>
      snd (create_delivery_request_with env request w)
  | telemetry_update telemetry => snd (update_telemetry telemetry w)
  | registration now drone_id position =>
      snd (register_drone now drone_id position w)
  end.

(** The state after a sequence of requests, from the start of the
    server. *)
Definition serve_all_with (requests : list Request) : World :=
  fold_left serve_with requests initial_world.

End Handlers.

Section Server.
Context {M : MathLib}.

(** [create_delivery_request], with the planner and the resolver of the
    repository. *)
Definition create_delivery_request : Env -> DeliveryRequest ->
    Handler Response :=
  create_delivery_request_with Pathfinding.plan_trajectory
    ConflictDetection.resolve_conflict.

Definition serve_all : list Request -> World :=
  serve_all_with Pathfinding.plan_trajectory
    ConflictDetection.resolve_conflict.

End Server.
End Main.

(* ------------------------------------------------------------------ *)
(** ** drone_simulator.py *)

Module DroneSimulator.
Import Config Models.

(** The attributes of a [VirtualDrone]. *)
Record VirtualDrone : Type := mkVirtualDrone {
  drone_id : string;
  position : Position;
  velocity : Q * Q * Q;
  battery_level : Q;
  status : DroneStatus;
  trajectory : option Trajectory;
  current_waypoint_index : nat;
  mission_start_time : option Q
}.

(** [VirtualDrone.__init__] *)
Definition init (drone_id : string) (initial_position : Position)
    : VirtualDrone :=
  mkVirtualDrone drone_id initial_position (0, 0, 0) 100 IDLE None 0%nat None.

(** [now] is the reading of [time.time()]; what is printed is left out. *)
Definition assign_trajectory (now : Q) (self : VirtualDrone)
    (trajectory : Trajectory) : VirtualDrone :=
  mkVirtualDrone (drone_id self) (position self) (velocity self)
    (battery_level self) EN_ROUTE_PICKUP (Some trajectory) 0%nat (Some now).

Definition get_telemetry (now : Q) (self : VirtualDrone) : Telemetry :=
  mkTelemetry (drone_id self) (position self) (velocity self)
    (battery_level self) (status self) now.

Section Physics.
Context {M : MathLib}.

(** The drone after [update_physics(dt)].  The method changes the drone in
    place, the fields of its [position] included; what is printed is left
    out. *)
Definition update_physics (self : VirtualDrone) (dt : Q) : VirtualDrone :=
  match trajectory self with
  | None => self
  | Some traj =>
      if DroneStatus_eqb (status self) IDLE then self
      else
        match nth_error (waypoints traj) (current_waypoint_index self) with
        | None =>
            mkVirtualDrone (drone_id self) (position self) (0, 0, 0)
              (battery_level self) AT_DELIVERY (trajectory self)
              (current_waypoint_index self) (mission_start_time self)
        | Some current_waypoint =>
            let target_pos := Models.position current_waypoint in
            let target_speed := speed current_waypoint in
            let distance :=
              Pathfinding.distance_3d
                (latitude (position self)) (longitude (position self))
                (altitude (position self))
                (latitude target_pos) (longitude target_pos)
                (altitude target_pos) in
            if Qltb distance 5 then
              let index := S (current_waypoint_index self) in
              if (List.length (waypoints traj) <=? index)%nat then
                mkVirtualDrone (drone_id self) (position self) (0, 0, 0)
                  (battery_level self) AT_DELIVERY (trajectory self)
                  index (mission_start_time self)
              else
                mkVirtualDrone (drone_id self) (position self)
                  (velocity self) (battery_level self) (status self)
                  (trajectory self) index (mission_start_time self)
            else
              let lat_diff :=
                latitude target_pos - latitude (position self) in
              let lon_diff :=
                longitude target_pos - longitude (position self) in
              let alt_diff :=
                altitude target_pos - altitude (position self) in
              let total_diff :=
                math_sqrt (lat_diff ^ 2 + lon_diff ^ 2 + alt_diff ^ 2) in
              let '(lat_dir, lon_dir, alt_dir) :=
                if Qltb 0 total_diff
                then (lat_diff / total_diff, lon_diff / total_diff,
                      alt_diff / total_diff)
                else (0, 0, 0) in
              let meters_per_degree_lat := 111320 in
              let meters_per_degree_lon :=
                111320 * math_cos (math_radians (latitude (position self))) in
              let lat_movement :=
                (target_speed * lat_dir * dt) / meters_per_degree_lat in
              let lon_movement :=
                (target_speed * lon_dir * dt) / meters_per_degree_lon in
              let alt_movement := target_speed * alt_dir * dt in
              let new_position :=
                mkPosition (latitude (position self) + lat_movement)
                  (longitude (position self) + lon_movement)
                  (altitude (position self) + alt_movement) in
              let new_velocity :=
                (target_speed * lat_dir, target_speed * lon_dir,
                 target_speed * alt_dir) in
              let power_consumption :=
                if Qltb 0 alt_diff then DRONE_POWER_CONSUMPTION * 1.5
                else DRONE_POWER_CONSUMPTION in
              let battery_consumed :=
                (power_consumption * dt) / (DRONE_BATTERY_CAPACITY * 36) in
              let new_battery_level :=
                py_max 0 (battery_level self - battery_consumed) in
              let new_status :=
                if Qltb new_battery_level 20 then
                  if Qltb new_battery_level 10 then EMERGENCY
                  else status self
                else status self in
              mkVirtualDrone (drone_id self) new_position new_velocity
                new_battery_level new_status (trajectory self)
                (current_waypoint_index self) (mission_start_time self)
        end
  end.

(** What a drone goes through between two looks at it: calls of
    [update_physics] by the simulation loop and of [assign_trajectory] by
    the mission listener. *)
Inductive Event : Type :=
| physics (dt : Q)
| assignment (now : Q) (trajectory : Trajectory).

Definition step (self : VirtualDrone) (e : Event) : VirtualDrone :=
  match e with
  | physics dt => update_physics self dt
  | assignment now trajectory => assign_trajectory now self trajectory
  end.

Definition run (self : VirtualDrone) (events : list Event) : VirtualDrone :=
  fold_left step events self.

End Physics.
End DroneSimulator.

(* ------------------------------------------------------------------ *)
(** ** A math library to run the model on

    Truncated series over the rationals, every value cut to twelve
    decimals.  They agree with Python's [math] where the examples below
    need it exactly ([sin 0 = 0], [sqrt 0 = 0], [atan2(0, 1) = 0],
    [atan2(0, 0) = 0]) and approximate it elsewhere.  No theorem below
    depends on them, the worked examples apart. *)

Module Approx.

(** Twelve decimals of [q]. *)
Definition cut (q : Q) : Q :=
  inject_Z (Qfloor (q * 1000000000000)) / 1000000000000.

Definition pi : Q := 3.141592653589.

Definition radians (x : Q) : Q := cut (x * pi / 180).

Definition degrees (x : Q) : Q := cut (x * 180 / pi).

Definition sin (x : Q) : Q :=
  let x := cut x in
  cut (x - cut (x ^ 3) / 6 + cut (x ^ 5) / 120).

Definition cos (x : Q) : Q :=
  let x := cut x in
  cut (1 - cut (x ^ 2) / 2 + cut (x ^ 4) / 24 - cut (x ^ 6) / 720).

(** The square root to six decimals. *)
Definition sqrt (q : Q) : Q :=
  if Qleb q 0 then 0
  else inject_Z (Z.sqrt (Qfloor (q * 1000000000000))) / 1000000.

Definition atan_series (z : Q) : Q :=
  let z := cut z in
  cut (z - cut (z ^ 3) / 3 + cut (z ^ 5) / 5 - cut (z ^ 7) / 7).

Definition atan (z : Q) : Q :=
  if Qleb (Qabs z) 1 then atan_series z
  else if Qltb 0 z then pi / 2 - atan_series (1 / z)
  else - (pi / 2) - atan_series (1 / z).

Definition atan2 (y x : Q) : Q :=
  if Qltb 0 x then atan (y / x)
  else if Qltb x 0 then
    if Qleb 0 y then atan (y / x) + pi else atan (y / x) - pi
  else if Qltb 0 y then pi / 2
  else if Qltb y 0 then - (pi / 2)
  else 0.

#[export] Instance math : MathLib := {|
  math_sin := sin;
  math_cos := cos;
  math_sqrt := sqrt;
  math_atan2 := atan2;
  math_radians := radians;
  math_degrees := degrees
|}.

End Approx.

(* ------------------------------------------------------------------ *)
(** ** Vocabulary of the statements *)

Section Vocabulary.
Context {M : MathLib}.
Import Config Models.

(** The [n]-th tick of the sampling loop started at [t_start]. *)
Fixpoint tick (t_start : Q) (n : nat) : Q :=
  match n with
  | O => t_start
  | S n' => tick t_start n' + TIME_RESOLUTION
  end.

(** The alert raised at a tick. *)
Definition alert_at (uuid4 drone_1_id drone_2_id : string)
    (current_time : Q) (pos_1 : Position4D)
    (horizontal_dist vertical_dist : Q) : ConflictAlert :=
  mkConflictAlert uuid4 drone_1_id drone_2_id pos_1 current_time
    (ConflictDetection.assess_severity horizontal_dist vertical_dist) None.

(** No violation at the first [n] ticks from [t], all within the window. *)
Definition clear_before (traj_1 traj_2 : Trajectory) (t_end t : Q) (n : nat)
    : Prop :=
  forall m, (m < n)%nat ->
    tick t m <= t_end
    /\ ConflictDetection.violation traj_1 traj_2 (tick t m) = None.

(** The separation minima are violated at [time]: both trajectories have an
    interpolated sample, [pos_1] is the first one's, [horizontal_dist] is
    their horizontal distance and is below [HORIZONTAL_SEPARATION], and
    their altitudes differ by less than [VERTICAL_SEPARATION]. *)
Definition separation_violated (traj_1 traj_2 : Trajectory) (time : Q)
    (pos_1 : Position4D) (horizontal_dist : Q) : Prop :=
  exists pos_2,
    ConflictDetection.interpolate_position traj_1 time = Some pos_1
    /\ ConflictDetection.interpolate_position traj_2 time = Some pos_2
    /\ horizontal_dist
       = Pathfinding.haversine_distance
           (latitude (pos pos_1)) (longitude (pos pos_1))
           (latitude (pos pos_2)) (longitude (pos pos_2))
    /\ horizontal_dist < HORIZONTAL_SEPARATION
    /\ Qabs (altitude (pos pos_1) - altitude (pos pos_2)) < VERTICAL_SEPARATION.

(** A node inside the operational area and outside every no-fly zone. *)
Definition node_ok (n : Pathfinding.Node4D) : Prop :=
  Geofencing.is_within_operational_area (Pathfinding.to_position n) = true
  /\ Geofencing.is_in_no_fly_zone (Pathfinding.to_position n) = false.

(** A node whose parent references lead to [s] through such nodes only. *)
Definition rooted (s n : Pathfinding.Node4D) : Prop :=
  exists inner,
    Pathfinding.parent_chain n = inner ++ [s] /\ Forall node_ok inner.

(** How far [conflicts_detected] is ahead of [conflicts_resolved]. *)
Definition lead (w : Main.World) : Z :=
  (Main.conflicts_detected (Main.system_stats w)
   - Main.conflicts_resolved (Main.system_stats w))%Z.

(** A handler that leaves [lead] as it found it, however it ends. *)
Definition steady {A : Type} (c : Main.Handler A) : Prop :=
  forall w, lead (snd (c w)) = lead w.

(** The state after one turn of the loop that resolves conflicts. *)
Definition counted (w : Main.World) (conflict : ConflictAlert)
    (method : string) : Main.World :=
  let s := Main.system_stats w in
  Main.mkWorld (Main.active_drones w) (Main.active_missions w)
    (Main.flight_plans w)
    (Main.mkStats (Main.total_missions s) (Main.completed_missions s)
       (Main.conflicts_detected s + 1) (Main.conflicts_resolved s + 1)
       (Main.active_drones_count s))
    (Main.broadcasts w ++ [Main.conflict_resolved conflict method])
    (Main.planner_calls w).

End Vocabulary.

(* ------------------------------------------------------------------ *)
(** ** Worked inputs *)

Section WorkedInputs.
Import Config Models.

(** A waypoint, a trajectory and an alert to run the resolver on. *)
Definition sample_position : Position := mkPosition 37.70 (-122.40) 50.

Definition sample_waypoint : Waypoint := mkWaypoint sample_position 0 10 0.

Definition sample_alert : ConflictAlert :=
  mkConflictAlert "c1" "drone_001" "drone_002"
    (mkPosition4D sample_position 0) 0 "critical" None.

Definition empty_trajectory : Trajectory := mkTrajectory [] 0 0 0.

Definition hover_trajectory : Trajectory :=
  mkTrajectory [sample_waypoint] 0 0 0.

(** Two more trajectories: one flying north from [sample_position], one
    parked at [sample_position]. *)
Definition north_position : Position := mkPosition 37.71 (-122.40) 50.

Definition northbound_trajectory : Trajectory :=
  mkTrajectory
    [mkWaypoint sample_position 0 10 0; mkWaypoint north_position 100 0 0]
    1100 100 0.

Definition parked_trajectory : Trajectory :=
  mkTrajectory
    [mkWaypoint sample_position 0 0 0; mkWaypoint sample_position 1000 0 0]
    0 1000 0.

(** A position inside the airport's no-fly zone. *)
Definition airport_position : Position := mkPosition 37.61 (-122.37) 50.

Definition sample_env : Main.Env :=
  Main.mkEnv "0a1b2c3d" 1000 1000 1000 (fun _ => "c1").

(** A resolver that always escalates, a planner that finds no path, and a
    server with one flight plan. *)
Definition escalating_resolver (conflict : ConflictAlert)
    (traj_1 traj_2 : Trajectory) : result (Trajectory * string) :=
  Ok (traj_1, "replan_required").

Definition no_plan (start goal : Position) (start_time : Q)
    : result (option Trajectory) :=
  Ok None.

Definition one_plan_world : Main.World :=
  Main.mkWorld [] [] [("drone_002", parked_trajectory)]
    (Main.mkStats 0 0 0 0 0) [] [].

(** Two nodes at the same place, at different times. *)
Definition early_node : Pathfinding.Node4D :=
  Pathfinding.mkNode 37.5 (-122.25) 50 0 None 0 0 0.

Definition late_node : Pathfinding.Node4D :=
  Pathfinding.mkNode 37.5 (-122.25) 50 10 (Some early_node) 5 5 10.

(** A short flight north of [sample_position]. *)
Definition nearby_goal : Position := mkPosition 37.703 (-122.40) 50.

(** A position just inside the airport's no-fly zone and a position 110 m
    north of it, outside the zone. *)
Definition apron_position : Position := mkPosition 37.6208 (-122.37) 50.

Definition gate_position : Position := mkPosition 37.6218 (-122.37) 50.

(** Two flights that follow each other at [sample_position]: the second
    one arrives when the first one leaves. *)
Definition morning_trajectory : Trajectory :=
  mkTrajectory
    [mkWaypoint sample_position 0 0 0; mkWaypoint sample_position 10 0 0]
    0 10 0.

Definition evening_trajectory : Trajectory :=
  mkTrajectory
    [mkWaypoint sample_position 10 0 0; mkWaypoint sample_position 20 0 0]
    0 10 0.

End WorkedInputs.

(* ------------------------------------------------------------------ *)
(** * Properties *)

Import Config Models.

(** ** Comparisons *)

Lemma Qltb_lt (x y : Q) : Qltb x y = true <-> x < y.
Proof.
  unfold Qltb. rewrite negb_true_iff, <- not_true_iff_false, Qle_bool_iff.
  split; intro H.
  - apply Qnot_le_lt; exact H.
  - apply Qlt_not_le; exact H.
Qed.

Lemma Qltb_ge (x y : Q) : Qltb x y = false <-> y <= x.
Proof.
  unfold Qltb. rewrite negb_false_iff. apply Qle_bool_iff.
Qed.

Lemma Qleb_le (x y : Q) : Qleb x y = true <-> x <= y.
Proof. apply Qle_bool_iff. Qed.

Lemma Qleb_gt (x y : Q) : Qleb x y = false <-> y < x.
Proof.
  unfold Qleb. rewrite <- not_true_iff_false, Qle_bool_iff.
  split; intro H.
  - apply Qnot_le_lt; exact H.
  - apply Qlt_not_le; exact H.
Qed.

Lemma Qeqb_eq (x y : Q) : Qeqb x y = true <-> x == y.
Proof. apply Qeq_bool_iff. Qed.

(** ** Results *)

Lemma bind_ok {A B : Type} (r : result A) (k : A -> result B) (b : B) :
  bind r k = Ok b -> exists a, r = Ok a /\ k a = Ok b.
Proof.
  destruct r as [a | e]; simpl; intro H.
  - exists a. split; [reflexivity | exact H].
  - discriminate.
Qed.

(* ------------------------------------------------------------------ *)
(** ** Battery estimate of a synthesised trajectory *)

Section BatteryEstimate.
Context {M : MathLib}.
Import Pathfinding.

Lemma rev_cons_last (A : Type) (x : A) (l : list A) :
  exists y l', rev (x :: l) = y :: l'.
Proof.
  destruct (rev (x :: l)) as [| y l'] eqn:E.
  - apply (f_equal (@List.length A)) in E. rewrite length_rev in E.
    simpl in E. discriminate.
  - exists y, l'. reflexivity.
Qed.

(** On a non-empty node list [nodes_to_trajectory] returns, and the
    battery estimate is [total_time * POWER / CAPACITY * 100], with nothing
    dividing by 3600 seconds per hour. *)
Lemma nodes_to_trajectory_battery (first : Node4D) (rest : list Node4D) :
  exists last l' t,
    rev (first :: rest) = last :: l'
    /\ nodes_to_trajectory (first :: rest) = Ok t
    /\ total_time t = time last - time first
    /\ estimated_battery_usage t
       = total_time t * DRONE_POWER_CONSUMPTION / DRONE_BATTERY_CAPACITY * 100.
Proof.
  destruct (rev_cons_last _ first rest) as (last & l' & E).
  unfold nodes_to_trajectory. rewrite E.
  eexists last, l', _. repeat split.
Qed.

End BatteryEstimate.

(** C9, at a path of two nodes one hour apart: the code's estimate is
    [3600 * 200 / 3600 * 100 = 20000], not the [20000 / 3600] of the formula
    with the hour conversion.  Whatever the math library. *)
Theorem nodes_to_trajectory_battery_one_hour :
  forall (M : MathLib),
    let n0 := Pathfinding.mkNode 37.70 (-122.40) 50 0 None 0 0 0 in
    let n1 := Pathfinding.mkNode 37.71 (-122.40) 50 3600 (Some n0) 0 0 0 in
    exists t,
      Pathfinding.nodes_to_trajectory [n0; n1] = Ok t
      /\ total_time t == 3600
      /\ estimated_battery_usage t == 20000
      /\ ~ estimated_battery_usage t
           == total_time t * DRONE_POWER_CONSUMPTION / DRONE_BATTERY_CAPACITY
              * 100 / 3600.
Proof.
  intros M n0 n1. eexists. split; [reflexivity |].
  simpl. repeat split; try reflexivity.
  intro H. vm_compute in H. discriminate.
Qed.

(* ------------------------------------------------------------------ *)
(** ** The resolver *)

Section Resolver.
Context {M : MathLib}.
Import ConflictDetection.

Lemma lookup_Position_unbound :
  lookup_global "Position" = Raise (NameError "Position").
Proof. reflexivity. Qed.

Lemma shift_waypoints_raises (w : Waypoint) (ws : list Waypoint) :
  shift_waypoints (w :: ws) = Raise (NameError "Position").
Proof. reflexivity. Qed.

Lemma adjust_altitude_raises (trajectory : Trajectory)
    (conflict : ConflictAlert) :
  waypoints trajectory <> [] ->
  adjust_altitude trajectory conflict = Raise (NameError "Position").
Proof.
  intro H. unfold adjust_altitude.
  destruct (waypoints trajectory) as [| w ws]; [contradiction |].
  rewrite shift_waypoints_raises. reflexivity.
Qed.

Lemma adjust_waypoints_length (conflict : ConflictAlert) (ws : list Waypoint) :
  forall prev_wp,
    List.length (adjust_waypoints conflict prev_wp ws) = List.length ws.
Proof.
  induction ws as [| w ws IH]; intro prev_wp; simpl.
  - reflexivity.
  - rewrite IH. reflexivity.
Qed.

Lemma last_waypoint_ok (ws : list Waypoint) :
  ws <> [] -> exists w, last_waypoint ws = Ok w.
Proof.
  intro H. unfold last_waypoint.
  destruct (rev ws) as [| w l] eqn:E.
  - apply (f_equal (@List.length Waypoint)) in E. rewrite length_rev in E.
    destruct ws; [contradiction | discriminate].
  - exists w. reflexivity.
Qed.

Lemma adjust_speed_ok_nonempty (trajectory t' : Trajectory)
    (conflict : ConflictAlert) :
  adjust_speed trajectory conflict = Ok t' -> waypoints trajectory <> [].
Proof.
  unfold adjust_speed. intros H E. rewrite E in H. discriminate.
Qed.

(** What [resolve_conflict] can return: only the outcome of the speed
    adjustment, checked against the reference trajectory. *)
Lemma resolve_conflict_returns (conflict : ConflictAlert)
    (traj_1 traj_2 t : Trajectory) (method : string) :
  resolve_conflict conflict traj_1 traj_2 = Ok (t, method) ->
  method = "speed_adjustment"
  /\ adjust_speed traj_1 conflict = Ok t
  /\ check_trajectory_conflict "" "test_1" t "test_2" traj_2 = Ok None.
Proof.
  unfold resolve_conflict. intro H.
  apply bind_ok in H. destruct H as (modified & Hspeed & H).
  apply bind_ok in H. destruct H as (clash & Hclash & H).
  unfold trajectories_conflict in Hclash.
  apply bind_ok in Hclash. destruct Hclash as (found & Hcheck & Hfound).
  destruct clash; simpl in H.
  - rewrite (adjust_altitude_raises traj_1 conflict) in H.
    + discriminate.
    + eapply adjust_speed_ok_nonempty; eassumption.
  - inversion H; subst. repeat split; try assumption.
    destruct found; [discriminate | exact Hcheck].
Qed.

End Resolver.




(** C3, at a conflict the speed adjustment does not clear: the northbound
    flight starts where the other drone is parked, the detector reports
    the conflict, and [resolve_conflict] raises NameError from
    [adjust_altitude] where it should return ["altitude_change"] or
    ["replan_required"]. *)
Theorem resolve_conflict_raises_name_error :
  exists conflict,
    ConflictDetection.check_trajectory_conflict (M := Approx.math) "c1"
      "drone_001" northbound_trajectory "drone_002" parked_trajectory
    = Ok (Some conflict)
    /\ ConflictDetection.resolve_conflict (M := Approx.math) conflict
         northbound_trajectory parked_trajectory
       = Raise (NameError "Position").
Proof.
  eexists. split.
  - vm_compute. reflexivity.
  - vm_compute. reflexivity.
Qed.

(* ------------------------------------------------------------------ *)
(** ** The speed adjustment *)

Section SpeedAdjustment.
Context {M : MathLib}.
Import ConflictDetection.

(** The [i]-th new waypoint is the loop body run on the [i]-th waypoint and
    on the new waypoint before it. *)
Lemma adjust_waypoints_nth (conflict : ConflictAlert) (ws : list Waypoint) :
  forall prev_wp i w,
    nth_error ws i = Some w ->
    nth_error (adjust_waypoints conflict prev_wp ws) i
    = Some (adjust_waypoint conflict
              match i with
              | O => prev_wp
              | S j => nth_error (adjust_waypoints conflict prev_wp ws) j
              end
              w).
Proof.
  induction ws as [| w0 rest IH]; intros prev_wp i w Hi.
  - destruct i; discriminate.
  - destruct i as [| j]; simpl in *.
    + inversion Hi; subst. reflexivity.
    + rewrite (IH _ _ _ Hi). destruct j; reflexivity.
Qed.

Lemma adjust_waypoint_fields (conflict : ConflictAlert)
    (prev_wp : option Waypoint) (w : Waypoint) :
  let w' := adjust_waypoint conflict prev_wp w in
  position w' = position w
  /\ heading w' = heading w
  /\ speed w'
     = (if Qltb (eta w) (conflict_time conflict)
        then py_max (speed w * 0.7) DRONE_MIN_SPEED
        else DRONE_CRUISE_SPEED)
  /\ eta w'
     = match prev_wp with
       | Some p =>
           eta p
           + Pathfinding.distance_3d
               (latitude (position p)) (longitude (position p))
               (altitude (position p))
               (latitude (position w)) (longitude (position w))
               (altitude (position w))
             / speed w'
       | None =>
           if Qltb (eta w) (conflict_time conflict) then eta w
           else eta w + TIME_RESOLUTION * 3
       end.
Proof.
  unfold adjust_waypoint.
  destruct (Qltb (eta w) (conflict_time conflict)); destruct prev_wp;
    simpl; repeat split.
Qed.

End SpeedAdjustment.

(** C5, as amended: on a trajectory with at least one waypoint
    [adjust_speed] returns a trajectory with the same positions and
    headings; a waypoint whose ETA precedes the conflict time gets its
    speed times 0.7, at least [DRONE_MIN_SPEED], the others get
    [DRONE_CRUISE_SPEED]; every ETA after the first is the new ETA before
    it plus the distance over the new speed; the first ETA is kept when it
    precedes the conflict time and is [3 * TIME_RESOLUTION] later
    otherwise. *)
Theorem adjust_speed_waypoints :
  forall (M : MathLib) (trajectory : Trajectory) (conflict : ConflictAlert),
    waypoints trajectory <> [] ->
    exists t',
      ConflictDetection.adjust_speed trajectory conflict = Ok t'
      /\ List.length (waypoints t') = List.length (waypoints trajectory)
      /\ forall i w,
           nth_error (waypoints trajectory) i = Some w ->
           exists w',
             nth_error (waypoints t') i = Some w'
             /\ position w' = position w
             /\ heading w' = heading w
             /\ speed w'
                = (if Qltb (eta w) (conflict_time conflict)
                   then py_max (speed w * 0.7) DRONE_MIN_SPEED
                   else DRONE_CRUISE_SPEED)
             /\ match i with
                | O =>
                    eta w'
                    = (if Qltb (eta w) (conflict_time conflict) then eta w
                       else eta w + TIME_RESOLUTION * 3)
                | S j =>
                    exists p',
                      nth_error (waypoints t') j = Some p'
                      /\ eta w'
                         = eta p'
                           + Pathfinding.distance_3d
                               (latitude (position p'))
                               (longitude (position p'))
                               (altitude (position p'))
                               (latitude (position w))
                               (longitude (position w))
                               (altitude (position w))
                             / speed w'
                end.
Proof.
  intros M trajectory conflict Hne.
  unfold ConflictDetection.adjust_speed.
  set (new_waypoints :=
         ConflictDetection.adjust_waypoints conflict None (waypoints trajectory)).
  assert (Hlen : List.length new_waypoints = List.length (waypoints trajectory))
    by apply adjust_waypoints_length.
  assert (Hne' : new_waypoints <> []).
  { intro E. rewrite E in Hlen. destruct (waypoints trajectory);
      [contradiction | discriminate]. }
  destruct (last_waypoint_ok _ Hne') as (wl & Hl). rewrite Hl. simpl.
  destruct new_waypoints as [| wf rest] eqn:Enew; [contradiction |].
  simpl. eexists. split; [reflexivity |]. simpl.
  split; [exact Hlen |].
  intros i w Hi. rewrite <- Enew.
  pose proof (adjust_waypoints_nth conflict _ None i w Hi) as Hnth.
  fold new_waypoints in Hnth. rewrite Enew in Hnth at 1. rewrite <- Enew in Hnth.
  eexists. split; [exact Hnth |].
  destruct (adjust_waypoint_fields conflict
              match i with
              | O => None
              | S j => nth_error new_waypoints j
              end w) as (Hp & Hh & Hs & He).
  repeat split; try assumption.
  destruct i as [| j].
  - exact He.
  - destruct (nth_error new_waypoints j) as [p' |] eqn:Ej.
    + exists p'. split; [reflexivity | exact He].
    + exfalso. apply nth_error_None in Ej.
      assert (Hlt : (S j < List.length (waypoints trajectory))%nat)
        by (apply nth_error_Some; rewrite Hi; discriminate).
      rewrite <- Enew in Hlen. fold new_waypoints in Hlen. lia.
Qed.

Lemma adjust_speed_waypoints_witness :
  exists t',
    ConflictDetection.adjust_speed (M := Approx.math) northbound_trajectory
      sample_alert = Ok t'
    /\ List.length (waypoints t') = 2%nat.
Proof.
  destruct (adjust_speed_waypoints Approx.math northbound_trajectory
              sample_alert) as (t' & H & Hlen & _).
  - discriminate.
  - exists t'. split; [exact H | exact Hlen].
Defined.

(** C5, as stated, fails when the first waypoint does not precede the
    conflict time (the conflict is at the first tick of a flight that starts
    last): its ETA moves from 0 to 15. *)
Lemma adjust_speed_shifts_first_eta :
  exists t' w w',
    ConflictDetection.adjust_speed (M := Approx.math) northbound_trajectory
      sample_alert = Ok t'
    /\ nth_error (waypoints northbound_trajectory) 0 = Some w
    /\ nth_error (waypoints t') 0 = Some w'
    /\ conflict_time sample_alert == 0
    /\ eta w == 0
    /\ eta w' == 15.
Proof.
  eexists. eexists. eexists.
  split; [vm_compute; reflexivity |].
  split; [reflexivity |]. split; [reflexivity |].
  split; [reflexivity |]. split; reflexivity.
Qed.

(* ------------------------------------------------------------------ *)
(** ** The request handler *)

Section Orchestrator.
Context {M : MathLib}.
Import Main.

Variable plan_trajectory :
  Position -> Position -> Q -> result (option Trajectory).
Variable resolve_conflict :
  ConflictAlert -> Trajectory -> Trajectory -> result (Trajectory * string).

(** A request with a bad pickup or delivery position is refused before
    anything is read or written. *)
Lemma create_delivery_request_with_rejects (env : Env)
    (request : DeliveryRequest) (w : World) :
  Geofencing.is_within_operational_area (pickup request) = false
  \/ Geofencing.is_within_operational_area (delivery request) = false
  \/ Geofencing.is_in_no_fly_zone (pickup request) = true
  \/ Geofencing.is_in_no_fly_zone (delivery request) = true ->
  exists detail,
    create_delivery_request_with plan_trajectory resolve_conflict env request w
    = (Raise (HTTPException 400 detail), w).
Proof.
  intro H. unfold create_delivery_request_with.
  destruct (Geofencing.is_within_operational_area (pickup request));
    simpl; [| eexists; reflexivity].
  destruct (Geofencing.is_within_operational_area (delivery request));
    simpl; [| eexists; reflexivity].
  destruct (Geofencing.is_in_no_fly_zone (pickup request));
    simpl; [eexists; reflexivity |].
  destruct (Geofencing.is_in_no_fly_zone (delivery request));
    simpl; [eexists; reflexivity |].
  destruct H as [H | [H | [H | H]]]; discriminate.
Qed.

Lemma steady_ret {A : Type} (a : A) : steady (ret a).
Proof. intro w. reflexivity. Qed.

Lemma steady_throw {A : Type} (e : exn) : steady (@throw A e).
Proof. intro w. reflexivity. Qed.

Lemma steady_lift {A : Type} (r : result A) : steady (lift r).
Proof. intro w. reflexivity. Qed.

Lemma steady_read : steady read.
Proof. intro w. reflexivity. Qed.

Lemma steady_broadcast (message : Message) : steady (broadcast message).
Proof. intro w. reflexivity. Qed.

Lemma steady_set_active_drones (d : dict Telemetry) :
  steady (set_active_drones d).
Proof. intro w. reflexivity. Qed.

Lemma steady_set_active_missions (d : dict Mission) :
  steady (set_active_missions d).
Proof. intro w. reflexivity. Qed.

Lemma steady_set_flight_plans (d : dict Trajectory) :
  steady (set_flight_plans d).
Proof. intro w. reflexivity. Qed.

Lemma steady_count_mission : steady count_mission.
Proof. intro w. reflexivity. Qed.

Lemma steady_andthen {A B : Type} (c : Handler A) (k : A -> Handler B) :
  steady c -> (forall a, steady (k a)) -> steady (andthen c k).
Proof.
  intros Hc Hk w. unfold andthen.
  specialize (Hc w). destruct (c w) as [[a | e] w']; simpl in *.
  - rewrite Hk. exact Hc.
  - exact Hc.
Qed.

Lemma steady_call_planner (start goal : Position) (start_time : Q) :
  steady (call_planner plan_trajectory start goal start_time).
Proof. intro w. reflexivity. Qed.

Lemma steady_detect (env : Env) (d : string) (t : Trajectory) :
  steady (detect_mission_conflicts env d t).
Proof. intro w. reflexivity. Qed.

(** The two increments of the loop body, taken together. *)
Lemma steady_count_both {B : Type} (k : Handler B) :
  steady k -> steady (count_detected ;;; count_resolved ;;; k).
Proof.
  intros Hk w. unfold andthen, count_detected, count_resolved, read,
    set_system_stats, update. simpl.
  rewrite Hk. unfold lead. simpl. lia.
Qed.

Lemma steady_resolve_all (conflicts : list ConflictAlert) :
  forall trajectory, steady (resolve_all resolve_conflict conflicts trajectory).
Proof.
  induction conflicts as [| conflict rest IH]; intro trajectory; simpl.
  - apply steady_ret.
  - apply steady_andthen; [apply steady_read | intro w0].
    apply steady_andthen; [apply steady_lift | intro reference].
    apply steady_andthen; [apply steady_lift | intros [resolved method]].
    apply steady_count_both.
    apply steady_andthen; [apply steady_broadcast | intros _].
    apply IH.
Qed.

Lemma steady_create_delivery_request (env : Env) (request : DeliveryRequest) :
  steady (create_delivery_request_with plan_trajectory resolve_conflict env
            request).
Proof.
  unfold create_delivery_request_with.
  repeat
    first
      [ apply steady_ret | apply steady_throw | apply steady_lift
      | apply steady_read | apply steady_broadcast
      | apply steady_set_active_drones | apply steady_set_active_missions
      | apply steady_set_flight_plans | apply steady_count_mission
      | apply steady_call_planner | apply steady_detect
      | apply steady_resolve_all
      | apply steady_andthen; [| intro]
      | match goal with
        | |- steady (if ?b then _ else _) => destruct b
        | |- steady (match ?x with _ => _ end) => destruct x
        end ].
Qed.

Lemma steady_update_telemetry (telemetry : Telemetry) :
  steady (update_telemetry telemetry).
Proof. intro w. reflexivity. Qed.

Lemma steady_register_drone (now : Q) (drone_id : string)
    (position : Position) :
  steady (register_drone now drone_id position).
Proof.
  intro w. unfold register_drone, andthen, read. simpl.
  destruct (dict_find (active_drones w) drone_id); reflexivity.
Qed.

Lemma lead_serve_with (w : World) (r : Request) :
  lead (serve_with plan_trajectory resolve_conflict w r) = lead w.
Proof.
  destruct r; simpl.
  - apply steady_create_delivery_request.
  - apply steady_update_telemetry.
  - apply steady_register_drone.
Qed.

Lemma lead_serve_all (requests : list Request) :
  lead (serve_all_with plan_trajectory resolve_conflict requests) = 0%Z.
Proof.
  unfold serve_all_with.
  assert (H : forall w, lead (fold_left (serve_with plan_trajectory
                                           resolve_conflict) requests w)
                        = lead w).
  { induction requests as [| r rest IH]; intro w; simpl.
    - reflexivity.
    - rewrite IH. apply lead_serve_with. }
  rewrite H. reflexivity.
Qed.

Lemma resolve_all_turn (conflict : ConflictAlert)
    (rest : list ConflictAlert) (trajectory reference resolved : Trajectory)
    (method : string) (w : World) :
  dict_item (flight_plans w) (drone_2_id conflict) = Ok reference ->
  resolve_conflict conflict trajectory reference = Ok (resolved, method) ->
  resolve_all resolve_conflict (conflict :: rest) trajectory w
  = resolve_all resolve_conflict rest resolved (counted w conflict method).
Proof.
  intros Href Hres. simpl. unfold andthen at 1. simpl.
  unfold andthen at 1. unfold lift at 1. rewrite Href.
  unfold andthen at 1. unfold lift at 1. rewrite Hres.
  reflexivity.
Qed.

Lemma resolve_all_stops (conflict : ConflictAlert) (rest : list ConflictAlert)
    (trajectory : Trajectory) (w : World) :
  (exists e, dict_item (flight_plans w) (drone_2_id conflict) = Raise e)
  \/ (exists reference e,
        dict_item (flight_plans w) (drone_2_id conflict) = Ok reference
        /\ resolve_conflict conflict trajectory reference = Raise e) ->
  exists e,
    resolve_all resolve_conflict (conflict :: rest) trajectory w = (Raise e, w).
Proof.
  intros [(e & Href) | (reference & e & Href & Hres)];
    exists e; simpl; unfold andthen at 1; simpl;
    unfold andthen at 1; unfold lift at 1; rewrite Href; [reflexivity |].
  unfold andthen at 1. unfold lift at 1. rewrite Hres. reflexivity.
Qed.

(** The loop adds the same number to both counters: one for each conflict
    whose resolution returned, so all of them when the loop ends normally. *)
Lemma resolve_all_counts (conflicts : list ConflictAlert) :
  forall trajectory w,
    exists n : nat,
      (n <= List.length conflicts)%nat
      /\ conflicts_detected
           (system_stats (snd (resolve_all resolve_conflict conflicts
                                 trajectory w)))
         = (conflicts_detected (system_stats w) + Z.of_nat n)%Z
      /\ conflicts_resolved
           (system_stats (snd (resolve_all resolve_conflict conflicts
                                 trajectory w)))
         = (conflicts_resolved (system_stats w) + Z.of_nat n)%Z
      /\ (forall t,
            fst (resolve_all resolve_conflict conflicts trajectory w) = Ok t ->
            n = List.length conflicts).
Proof.
  induction conflicts as [| conflict rest IH]; intros trajectory w.
  - exists 0%nat. simpl. repeat split; try lia.
  - destruct (dict_item (flight_plans w) (drone_2_id conflict))
      as [reference | e] eqn:Href.
    + destruct (resolve_conflict conflict trajectory reference)
        as [[resolved method] | e] eqn:Hres.
      * rewrite (resolve_all_turn _ _ _ _ _ _ _ Href Hres).
        destruct (IH resolved (counted w conflict method))
          as (n & Hn & Hd & Hr & Hok).
        exists (S n). rewrite Hd, Hr. simpl.
        repeat split; try lia.
        intros t Ht. rewrite (Hok t Ht). reflexivity.
      * destruct (resolve_all_stops conflict rest trajectory w) as (e' & E).
        { right. exists reference, e. split; assumption. }
        rewrite E. exists 0%nat. simpl.
        repeat split; try lia. intros t Ht. discriminate.
    + destruct (resolve_all_stops conflict rest trajectory w) as (e' & E).
      { left. exists e. assumption. }
      rewrite E. exists 0%nat. simpl.
      repeat split; try lia. intros t Ht. discriminate.
Qed.

(** One turn of the loop on a resolution that escalates. *)
Lemma resolve_all_escalation (conflict : ConflictAlert)
    (trajectory reference : Trajectory) (w : World) :
  dict_item (flight_plans w) (drone_2_id conflict) = Ok reference ->
  resolve_conflict conflict trajectory reference
  = Ok (trajectory, "replan_required") ->
  exists w',
    resolve_all resolve_conflict [conflict] trajectory w = (Ok trajectory, w')
    /\ conflicts_detected (system_stats w')
       = (conflicts_detected (system_stats w) + 1)%Z
    /\ conflicts_resolved (system_stats w')
       = (conflicts_resolved (system_stats w) + 1)%Z.
Proof.
  intros Href Hres. rewrite (resolve_all_turn _ _ _ _ _ _ _ Href Hres).
  eexists. split; [reflexivity |]. simpl. split; reflexivity.
Qed.

End Orchestrator.

(** C6: a delivery request whose pickup or delivery position is outside
    the operational area or inside a no-fly zone fails with HTTP error 400,
    and the state of the server is what it was: no mission, no table, no
    counter has changed, and no call to the planner has been made. *)
Theorem create_delivery_request_validation :
  forall (M : MathLib) (env : Main.Env) (request : DeliveryRequest)
         (w : Main.World),
    Geofencing.is_within_operational_area (pickup request) = false
    \/ Geofencing.is_within_operational_area (delivery request) = false
    \/ Geofencing.is_in_no_fly_zone (pickup request) = true
    \/ Geofencing.is_in_no_fly_zone (delivery request) = true ->
    exists detail,
      Main.create_delivery_request env request w
      = (Raise (HTTPException 400 detail), w).
Proof.
  intros M env request w H.
  apply create_delivery_request_with_rejects. exact H.
Qed.

Lemma create_delivery_request_validation_witness :
  exists detail,
    Main.create_delivery_request (M := Approx.math) sample_env
      (mkDeliveryRequest sample_position airport_position) Main.initial_world
    = (Raise (HTTPException 400 detail), Main.initial_world).
Proof.
  apply (create_delivery_request_validation Approx.math).
  right. right. right. reflexivity.
Defined.



(* ------------------------------------------------------------------ *)
(** ** Node identity *)

Section NodeIdentity.
Import Pathfinding.

Lemma round_half_even_near (q : Q) :
  inject_Z (round_half_even q) - (1 # 2) <= q
  /\ q <= inject_Z (round_half_even q) + (1 # 2).
Proof.
  unfold round_half_even.
  pose proof (Qfloor_le q) as Hlo. pose proof (Qlt_floor q) as Hhi.
  rewrite inject_Z_plus in Hhi. change (inject_Z 1) with 1 in Hhi.
  destruct (Qltb (q - inject_Z (Qfloor q)) (1 # 2)) eqn:E1.
  - apply Qltb_lt in E1. split; lra.
  - apply Qltb_ge in E1.
    destruct (Qltb (1 # 2) (q - inject_Z (Qfloor q))) eqn:E2.
    + rewrite inject_Z_plus. change (inject_Z 1) with 1. split; lra.
    + apply Qltb_ge in E2. destruct (Z.even (Qfloor q)).
      * split; lra.
      * rewrite inject_Z_plus. change (inject_Z 1) with 1. split; lra.
Qed.

Lemma pow10_pos (n : nat) : 0 < inject_Z (10 ^ Z.of_nat n).
Proof.
  change 0 with (inject_Z 0). rewrite <- Zlt_Qlt.
  apply Z.pow_pos_nonneg; lia.
Qed.

Lemma py_round_eq (x y : Q) (n : nat) :
  py_round x n == py_round y n ->
  round_half_even (x * inject_Z (10 ^ Z.of_nat n))
  = round_half_even (y * inject_Z (10 ^ Z.of_nat n)).
Proof.
  unfold py_round. intro H. pose proof (pow10_pos n) as Hs.
  apply inject_Z_injective.
  set (s := inject_Z (10 ^ Z.of_nat n)) in *.
  set (a := inject_Z (round_half_even (x * s))) in *.
  set (b := inject_Z (round_half_even (y * s))) in *.
  assert (Ha : a == a / s * s) by (field; lra).
  assert (Hb : b == b / s * s) by (field; lra).
  rewrite Ha, Hb, H. reflexivity.
Qed.

Lemma five_divides_odd_part (e : nat) (n : Z) :
  (5 | 2 ^ Z.of_nat e * n)%Z -> (5 | n)%Z.
Proof.
  induction e as [| e IH]; intro H.
  - change (Z.of_nat 0) with 0%Z in H.
    rewrite Z.pow_0_r, Z.mul_1_l in H. exact H.
  - apply IH. rewrite Nat2Z.inj_succ, Z.pow_succ_r in H by lia.
    rewrite <- Z.mul_assoc in H.
    apply (Z.gauss 5 2); [exact H | reflexivity].
Qed.

(** A binary value that sits half-way between two multiples of [1/10000]:
    the odd numerator is a multiple of five. *)
Lemma dyadic_tie (x : Q) (c : Z) :
  dyadic x -> x * 10000 == inject_Z c * (1 # 2) -> (5 | c)%Z.
Proof.
  intros (m & e & Hx) Hc.
  apply (five_divides_odd_part e).
  assert (Hp : 0 < inject_Z (2 ^ Z.of_nat e)).
  { change 0 with (inject_Z 0). rewrite <- Zlt_Qlt.
    apply Z.pow_pos_nonneg; lia. }
  assert (E : inject_Z (4000 * m * 5) == inject_Z (2 ^ Z.of_nat e * c)).
  { rewrite !inject_Z_mult.
    set (p := inject_Z (2 ^ Z.of_nat e)) in *.
    assert (Hm : inject_Z m == x * p) by (rewrite Hx; field; lra).
    assert (Hic : inject_Z c == x * 20000) by lra.
    rewrite Hm, Hic. change (inject_Z 4000) with 4000.
    change (inject_Z 5) with 5. ring. }
  apply (proj1 (inject_Z_injective _ _)) in E.
  exists (4000 * m)%Z. symmetry. exact E.
Qed.

Lemma round_cell_open (x y : Q) :
  dyadic x -> dyadic y ->
  round_half_even (x * 10000) = round_half_even (y * 10000) ->
  Qabs (x - y) < 0.0001.
Proof.
  intros Dx Dy E.
  destruct (round_half_even_near (x * 10000)) as (Hx1 & Hx2).
  destruct (round_half_even_near (y * 10000)) as (Hy1 & Hy2).
  rewrite E in Hx1, Hx2.
  set (k := round_half_even (y * 10000)) in *.
  assert (Tie : forall u v : Q,
             dyadic u -> dyadic v ->
             u * 10000 == inject_Z k + (1 # 2) ->
             v * 10000 == inject_Z k - (1 # 2) -> False).
  { intros u v Du Dv Hu Hv.
    assert (H1 : (5 | 2 * k + 1)%Z).
    { apply (dyadic_tie u); [exact Du |].
      rewrite inject_Z_plus, inject_Z_mult. change (inject_Z 2) with 2.
      change (inject_Z 1) with 1. lra. }
    assert (H2 : (5 | 2 * k - 1)%Z).
    { apply (dyadic_tie v); [exact Dv |].
      unfold Z.sub. rewrite inject_Z_plus, inject_Z_mult.
      change (inject_Z 2) with 2. change (inject_Z (- (1))) with (-1). lra. }
    destruct H1 as (c1 & H1). destruct H2 as (c2 & H2). lia. }
  apply Qabs_Qlt_condition. split.
  - destruct (Qlt_le_dec (- 0.0001) (x - y)) as [H | H]; [exact H |].
    exfalso. apply (Tie y x Dy Dx); lra.
  - destruct (Qlt_le_dec (x - y) 0.0001) as [H | H]; [exact H |].
    exfalso. apply (Tie x y Dx Dy); lra.
Qed.

Lemma round_cell_alt (x y : Q) :
  round_half_even (x * 1) = round_half_even (y * 1) ->
  Qabs (x - y) < 5.
Proof.
  intro E.
  destruct (round_half_even_near (x * 1)) as (Hx1 & Hx2).
  destruct (round_half_even_near (y * 1)) as (Hy1 & Hy2).
  rewrite E in Hx1, Hx2.
  apply Qabs_Qlt_condition. split; lra.
Qed.

Lemma same_node_iff (a b : Node4D) :
  dyadic (lat a) -> dyadic (lon a) -> dyadic (lat b) -> dyadic (lon b) ->
  (same_node a b = true <-> key_eqb (hash_key a) (hash_key b) = true).
Proof.
  intros Dla Dlo Dlb Dlob. unfold same_node. split.
  - intro H. apply andb_true_iff in H. tauto.
  - intro H. rewrite H. simpl.
    unfold key_eqb, hash_key in H.
    apply andb_true_iff in H. destruct H as (H & Halt).
    apply andb_true_iff in H. destruct H as (Hlat & Hlon).
    apply Qeqb_eq, py_round_eq in Hlat, Hlon, Halt.
    unfold node_eq. rewrite !andb_true_iff. repeat split; apply Qltb_lt.
    + apply round_cell_open; assumption.
    + apply round_cell_open; assumption.
    + apply round_cell_alt; assumption.
Qed.

End NodeIdentity.



(* ------------------------------------------------------------------ *)
(** ** The open set *)

Section HeapElements.
Context {A : Type} (lt : A -> A -> bool) (P : A -> Prop).
Import Heapq.

Lemma list_set_Forall (heap : list A) :
  forall i x, Forall P heap -> P x -> Forall P (list_set heap i x).
Proof.
  induction heap as [| y tl IH]; intros i x Hh Hx; simpl.
  - destruct i; constructor.
  - inversion Hh; subst. destruct i; constructor; auto.
Qed.

Lemma nth_Forall (heap : list A) (i : nat) (d : A) :
  Forall P heap -> P d -> P (nth i heap d).
Proof.
  intros Hh Hd. destruct (nth_in_or_default i heap d) as [H | H].
  - rewrite Forall_forall in Hh. apply Hh. exact H.
  - rewrite H. exact Hd.
Qed.

Lemma siftdown_loop_Forall (fuel : nat) :
  forall heap startpos pos newitem,
    Forall P heap -> P newitem ->
    Forall P (siftdown_loop lt fuel heap startpos pos newitem).
Proof.
  induction fuel as [| fuel IH]; intros heap startpos pos newitem Hh Hn; simpl.
  - apply list_set_Forall; assumption.
  - destruct (startpos <? pos)%nat; [| apply list_set_Forall; assumption].
    destruct (lt newitem _); [| apply list_set_Forall; assumption].
    apply IH; [| assumption].
    apply list_set_Forall; [assumption |]. apply nth_Forall; assumption.
Qed.

Lemma siftdown_Forall (heap : list A) (startpos pos : nat) :
  Forall P heap -> Forall P (siftdown lt heap startpos pos).
Proof.
  intro Hh. unfold siftdown. destruct (nth_error heap pos) as [x |] eqn:E.
  - apply siftdown_loop_Forall; [assumption |].
    rewrite Forall_forall in Hh. apply Hh. eapply nth_error_In; eassumption.
  - assumption.
Qed.

Lemma siftup_loop_Forall (fuel : nat) :
  forall heap endpos pos newitem,
    Forall P heap -> P newitem ->
    Forall P (fst (siftup_loop lt fuel heap endpos pos newitem)).
Proof.
  induction fuel as [| fuel IH]; intros heap endpos pos newitem Hh Hn; simpl.
  - assumption.
  - match goal with
    | |- context [if ?c then _ else _] => destruct c
    end; [| assumption].
    apply IH; [| assumption].
    apply list_set_Forall; [assumption |]. apply nth_Forall; assumption.
Qed.

Lemma siftup_Forall (heap : list A) (pos : nat) :
  Forall P heap -> Forall P (siftup lt heap pos).
Proof.
  intro Hh. unfold siftup. destruct (nth_error heap pos) as [x |] eqn:E.
  - assert (Hx : P x).
    { rewrite Forall_forall in Hh. apply Hh. eapply nth_error_In; eassumption. }
    pose proof (siftup_loop_Forall (List.length heap) heap (List.length heap)
                  pos x Hh Hx) as H.
    destruct (siftup_loop lt (List.length heap) heap (List.length heap) pos x)
      as [heap' pos'].
    simpl in H. apply siftdown_Forall. apply list_set_Forall; assumption.
  - assumption.
Qed.

Lemma heappush_Forall (heap : list A) (item : A) :
  Forall P heap -> P item -> Forall P (heappush lt heap item).
Proof.
  intros Hh Hi. unfold heappush. apply siftdown_Forall.
  apply Forall_app. split; [assumption | constructor; [assumption | constructor]].
Qed.

Lemma heappop_Forall (heap heap' : list A) (x : A) :
  heappop lt heap = Some (x, heap') ->
  Forall P heap -> P x /\ Forall P heap'.
Proof.
  unfold heappop. intros H Hh.
  apply Forall_rev in Hh.
  destruct (rev heap) as [| lastelt rest_rev]; [discriminate |].
  apply Forall_cons_iff in Hh. destruct Hh as (Hlast & Hrest).
  apply Forall_rev in Hrest.
  destruct (rev rest_rev) as [| returnitem tl].
  - injection H as <- <-. split; [assumption | constructor].
  - injection H as <- <-.
    apply Forall_cons_iff in Hrest. destruct Hrest as (Hret & Htl).
    split; [assumption |]. apply siftup_Forall. constructor; assumption.
Qed.

Lemma heappop_empty (heap : list A) :
  heappop lt heap = None <-> heap = [].
Proof.
  unfold heappop. split; intro H.
  - destruct (rev heap) as [| lastelt rest_rev] eqn:E.
    + apply (f_equal (@rev A)) in E. rewrite rev_involutive in E. exact E.
    + destruct (rev rest_rev); discriminate.
  - subst. reflexivity.
Qed.

End HeapElements.

(* ------------------------------------------------------------------ *)
(** ** The search of the planner *)

Section Search.
Context {M : MathLib}.
Import Pathfinding.

(** The nodes popped before the loop ends fail the goal test; the loop pops
    at most [fuel] nodes. *)
Lemma search_popped (fuel : nat) (goal : Position) :
  forall open_set closed_set popped o popped',
    search fuel goal open_set closed_set popped = (o, popped') ->
    exists new,
      popped' = new ++ popped
      /\ (List.length new <= fuel)%nat
      /\ match o with
         | Found current =>
             goal_reached goal current = true
             /\ exists rest,
                  new = current :: rest
                  /\ Forall (fun n => goal_reached goal n = false) rest
         | OpenSetEmpty => Forall (fun n => goal_reached goal n = false) new
         | IterationLimit =>
             Forall (fun n => goal_reached goal n = false) new
             /\ List.length new = fuel
         end.
Proof.
  induction fuel as [| fuel IH];
    intros open_set closed_set popped o popped' H; simpl in H.
  - destruct (Heapq.heappop node_lt open_set) as [[current open_set'] |];
      injection H as <- <-; exists []; simpl; repeat split; constructor.
  - destruct (Heapq.heappop node_lt open_set) as [[current open_set'] |].
    + destruct (goal_reached goal current) eqn:Hgoal.
      * injection H as <- <-. exists [current]. simpl.
        repeat split; try lia; try assumption.
        exists []. split; [reflexivity | constructor].
      * apply IH in H. destruct H as (new & Hnew & Hlen & Ho).
        exists (new ++ [current]). rewrite <- app_assoc. simpl.
        split; [exact Hnew |]. rewrite length_app. simpl.
        split; [lia |].
        destruct o as [c | |].
        -- destruct Ho as (Hc & rest & Hrest & Hall). split; [exact Hc |].
           exists (rest ++ [current]). subst new. simpl.
           split; [reflexivity |].
           apply Forall_app. split; [exact Hall |]. constructor; [exact Hgoal | constructor].
        -- apply Forall_app. split; [exact Ho |]. constructor; [exact Hgoal | constructor].
        -- destruct Ho as (Hall & Hl). split; [| lia].
           apply Forall_app. split; [exact Hall |]. constructor; [exact Hgoal | constructor].
    + injection H as <- <-. exists []. simpl. repeat split; try lia. constructor.
Qed.

Lemma max_iterations_value : Z.of_nat max_iterations = 200000%Z.
Proof. unfold max_iterations. rewrite Z2Nat.id; lia. Qed.

Lemma parent_chain_unfold (node : Node4D) :
  parent_chain node
  = node :: match parent node with
            | Some p => parent_chain p
            | None => []
            end.
Proof. destruct node; reflexivity. Qed.

Lemma reconstruct_path_nonempty (node : Node4D) :
  exists first rest, reconstruct_path node = first :: rest.
Proof.
  unfold reconstruct_path. rewrite parent_chain_unfold.
  destruct (rev_cons_last _ node
              match parent node with
              | Some p => parent_chain p
              | None => []
              end) as (y & l' & E).
  exists y, l'. exact E.
Qed.

Lemma plan_trajectory_found (start goal : Position) (start_time : Q)
    (current : Node4D) :
  fst (run_search start goal start_time) = Found current ->
  exists t,
    nodes_to_trajectory (reconstruct_path current) = Ok t
    /\ plan_trajectory start goal start_time = Ok (Some t).
Proof.
  intro H. unfold plan_trajectory. rewrite H.
  destruct (reconstruct_path_nonempty current) as (first & rest & E).
  rewrite E.
  destruct (nodes_to_trajectory_battery first rest)
    as (last & l' & t & _ & Ht & _).
  exists t. rewrite Ht. split; reflexivity.
Qed.

End Search.


(* ------------------------------------------------------------------ *)
(** ** Geofence of a planned trajectory *)

Section PlannedGeofence.
Context {M : MathLib}.
Import Pathfinding.

Lemma rooted_start (s : Node4D) : parent s = None -> rooted s s.
Proof.
  intro H. exists []. rewrite parent_chain_unfold, H. split; [reflexivity | constructor].
Qed.

Lemma rooted_child (s current : Node4D) (la lo al t g' h' f' : Q) :
  rooted s current ->
  node_ok (mkNode la lo al t (Some current) g' h' f') ->
  rooted s (mkNode la lo al t (Some current) g' h' f').
Proof.
  intros (inner & Hchain & Hall) Hok.
  exists (mkNode la lo al t (Some current) g' h' f' :: inner).
  rewrite parent_chain_unfold. simpl. rewrite Hchain.
  split; [reflexivity | constructor; assumption].
Qed.

Lemma neighbor_at_within (node neighbor : Node4D) (dlat dlon alt' : Q) :
  neighbor_at node dlat dlon alt' = Some neighbor ->
  Geofencing.is_within_operational_area (to_position neighbor) = true.
Proof.
  unfold neighbor_at.
  destruct (Geofencing.is_within_operational_area
              (mkPosition (lat node + dlat) (lon node + dlon) alt')) eqn:E;
    simpl; intro H; [| discriminate].
  injection H as <-. exact E.
Qed.

Lemma get_neighbors_within (node neighbor : Node4D) (goal_lat goal_lon : Q) :
  In neighbor (get_neighbors node goal_lat goal_lon) ->
  Geofencing.is_within_operational_area (to_position neighbor) = true.
Proof.
  unfold get_neighbors. intro H.
  apply in_flat_map in H. destruct H as ([dlat dlon] & _ & H).
  apply in_flat_map in H. destruct H as (alt' & _ & H).
  destruct (neighbor_at node dlat dlon alt') as [nb |] eqn:E.
  - destruct H as [H | []]. subst nb.
    eapply neighbor_at_within; eassumption.
  - destruct H.
Qed.

Lemma cost_finite_outside (position : Position) (c : Q) :
  Geofencing.get_position_cost_multiplier position = Fin c ->
  Geofencing.is_in_no_fly_zone position = false.
Proof.
  unfold Geofencing.get_position_cost_multiplier, Geofencing.is_in_no_fly_zone.
  destruct (existsb _ NO_FLY_ZONES); [discriminate | reflexivity].
Qed.

Lemma visit_neighbor_rooted (s current neighbor : Node4D) (goal : Position)
    (closed_set open_set : list Node4D) :
  rooted s current ->
  Geofencing.is_within_operational_area (to_position neighbor) = true ->
  Forall (rooted s) open_set ->
  Forall (rooted s) (visit_neighbor goal current closed_set open_set neighbor).
Proof.
  intros Hcur Hin Hopen. unfold visit_neighbor.
  destruct (set_mem neighbor closed_set); [assumption |].
  destruct (Geofencing.get_position_cost_multiplier (to_position neighbor))
    as [c |] eqn:E; [| assumption].
  apply heappush_Forall; [assumption |].
  apply rooted_child; [assumption |].
  split; [exact Hin |]. eapply cost_finite_outside; eassumption.
Qed.

Lemma expand_rooted (s current : Node4D) (goal : Position)
    (closed_set : list Node4D) (neighbors : list Node4D) :
  rooted s current ->
  Forall (fun n => Geofencing.is_within_operational_area (to_position n) = true)
    neighbors ->
  forall open_set,
    Forall (rooted s) open_set ->
    Forall (rooted s)
      (fold_left (visit_neighbor goal current closed_set) neighbors open_set).
Proof.
  intros Hcur Hn. induction Hn as [| nb rest Hnb Hrest IH]; intros open_set Ho; simpl.
  - assumption.
  - apply IH. apply visit_neighbor_rooted; assumption.
Qed.

Lemma search_found_rooted (s : Node4D) (fuel : nat) (goal : Position) :
  forall open_set closed_set popped current popped',
    Forall (rooted s) open_set ->
    search fuel goal open_set closed_set popped = (Found current, popped') ->
    rooted s current.
Proof.
  induction fuel as [| fuel IH];
    intros open_set closed_set popped current popped' Ho H; simpl in H.
  - destruct (Heapq.heappop node_lt open_set) as [[c o'] |]; discriminate.
  - destruct (Heapq.heappop node_lt open_set) as [[c o'] |] eqn:Epop;
      [| discriminate].
    destruct (heappop_Forall node_lt (rooted s) _ _ _ Epop Ho) as (Hc & Ho').
    destruct (goal_reached goal c).
    + injection H as <- _. exact Hc.
    + eapply IH; [| exact H].
      apply expand_rooted; try assumption.
      apply Forall_forall. intros nb Hnb.
      eapply get_neighbors_within; eassumption.
Qed.

Lemma nodes_waypoints_positions (nodes : list Node4D) :
  map position (nodes_waypoints nodes) = map to_position nodes.
Proof.
  induction nodes as [| node rest IH]; [reflexivity |].
  cbn [nodes_waypoints map]. rewrite <- IH.
  destruct rest as [| next_node rest']; reflexivity.
Qed.

Lemma nodes_to_trajectory_positions (nodes : list Node4D) (t : Trajectory) :
  nodes_to_trajectory nodes = Ok t ->
  map position (waypoints t) = map to_position nodes.
Proof.
  unfold nodes_to_trajectory. intro H.
  destruct nodes as [| first rest]; [discriminate |].
  destruct (rev (first :: rest)) as [| last l']; [discriminate |].
  injection H as <-. cbn [waypoints].
  apply (nodes_waypoints_positions (first :: rest)).
Qed.

(** The positions of a planned trajectory: the start node's, then
    positions inside the operational area and outside the no-fly zones. *)
Lemma plan_trajectory_positions (start goal : Position) (start_time : Q)
    (t : Trajectory) :
  plan_trajectory start goal start_time = Ok (Some t) ->
  exists inner,
    map position (waypoints t)
    = to_position (start_node start goal start_time) :: map to_position inner
    /\ Forall node_ok inner.
Proof.
  unfold plan_trajectory. intro H.
  destruct (run_search start goal start_time) as [o popped] eqn:E.
  simpl in H. destruct o as [current | |]; try discriminate.
  apply bind_ok in H. destruct H as (t' & Ht & H). injection H as <-.
  unfold run_search in E.
  apply (search_found_rooted (start_node start goal start_time)) in E.
  - destruct E as (inner & Hchain & Hall).
    exists (rev inner). split.
    + rewrite (nodes_to_trajectory_positions _ _ Ht).
      unfold reconstruct_path. rewrite Hchain, rev_app_distr. reflexivity.
    + apply Forall_rev. exact Hall.
  - apply heappush_Forall; [constructor |].
    apply rooted_start. reflexivity.
Qed.

End PlannedGeofence.

(** C1, as amended: every waypoint of a planned trajectory after the first
    is outside the no-fly zones and inside the operational area; the first
    waypoint has the latitude and the longitude of the start position, so
    it passes the two tests exactly when the start position does. *)
Theorem plan_trajectory_geofence :
  forall (M : MathLib) (start goal : Position) (start_time : Q)
         (t : Trajectory),
    Pathfinding.plan_trajectory start goal start_time = Ok (Some t) ->
    exists w ws,
      waypoints t = w :: ws
      /\ latitude (position w) = latitude start
      /\ longitude (position w) = longitude start
      /\ Geofencing.is_in_no_fly_zone (position w)
         = Geofencing.is_in_no_fly_zone start
      /\ Geofencing.is_within_operational_area (position w)
         = Geofencing.is_within_operational_area start
      /\ Forall
           (fun wp =>
              Geofencing.is_in_no_fly_zone (position wp) = false
              /\ Geofencing.is_within_operational_area (position wp) = true)
           ws.
Proof.
  intros M start goal start_time t H.
  apply plan_trajectory_positions in H. destruct H as (inner & Hpos & Hall).
  destruct (waypoints t) as [| w ws]; [discriminate |].
  simpl in Hpos. injection Hpos as Hw Hws.
  exists w, ws. split; [reflexivity |].
  rewrite Hw. simpl. repeat split.
  clear Hw. revert inner Hws Hall.
  induction ws as [| wp ws IH]; intros inner Hws Hall.
  - constructor.
  - destruct inner as [| n inner]; [discriminate |].
    simpl in Hws. injection Hws as Hwp Hws.
    apply Forall_cons_iff in Hall. destruct Hall as ((Hin & Hout) & Hall).
    constructor.
    + rewrite Hwp. split; assumption.
    + eapply IH; eassumption.
Qed.

Lemma nearby_goal_planned :
  exists t,
    Pathfinding.plan_trajectory (M := Approx.math) sample_position
      nearby_goal 0 = Ok (Some t).
Proof. eexists. vm_compute. reflexivity. Qed.

Lemma plan_trajectory_geofence_witness :
  exists t w ws,
    Pathfinding.plan_trajectory (M := Approx.math) sample_position
      nearby_goal 0 = Ok (Some t)
    /\ waypoints t = w :: ws
    /\ Forall
         (fun wp =>
            Geofencing.is_in_no_fly_zone (position wp) = false
            /\ Geofencing.is_within_operational_area (position wp) = true)
         ws.
Proof.
  destruct nearby_goal_planned as (t & E).
  destruct (plan_trajectory_geofence Approx.math _ _ _ _ E)
    as (w & ws & Hw & _ & _ & _ & _ & Hall).
  exists t, w, ws.
  split; [exact E | split; [exact Hw | exact Hall]].
Defined.

(** C1, as stated, fails at the first waypoint: a drone that stands inside
    a no-fly zone and is sent to a valid position nearby gets a trajectory
    whose first waypoint is its own position. *)
Lemma plan_trajectory_starts_in_no_fly_zone :
  exists t w,
    Geofencing.is_in_no_fly_zone gate_position = false
    /\ Geofencing.is_within_operational_area gate_position = true
    /\ Pathfinding.plan_trajectory (M := Approx.math) apron_position
         gate_position 0 = Ok (Some t)
    /\ nth_error (waypoints t) 0 = Some w
    /\ Geofencing.is_in_no_fly_zone (position w) = true.
Proof.
  eexists. eexists.
  split; [reflexivity |]. split; [reflexivity |].
  split; [vm_compute; reflexivity |].
  split; reflexivity.
Qed.

(* ------------------------------------------------------------------ *)
(** ** The conflict detector *)

Lemma tick_shift (t : Q) (n : nat) :
  tick (t + TIME_RESOLUTION) n = tick t (S n).
Proof.
  induction n as [| n IH]; simpl.
  - reflexivity.
  - rewrite IH. reflexivity.
Qed.

Lemma tick_value (t : Q) (n : nat) :
  tick t n == t + inject_Z (Z.of_nat n) * 5.
Proof.
  induction n as [| n IH].
  - cbn [tick]. change (inject_Z (Z.of_nat 0)) with 0. ring.
  - cbn [tick]. rewrite IH, Nat2Z.inj_succ. unfold Z.succ.
    rewrite inject_Z_plus. unfold TIME_RESOLUTION.
    change (inject_Z 1) with 1. lra.
Qed.

Lemma tick_lt (t : Q) (n m : nat) : tick t n < tick t m -> (n < m)%nat.
Proof.
  rewrite !tick_value. intro H.
  destruct (Nat.lt_ge_cases n m) as [Hlt | Hge]; [exact Hlt |].
  exfalso. apply inj_le in Hge. rewrite Zle_Qle in Hge.
  revert H Hge. generalize (inject_Z (Z.of_nat n)) (inject_Z (Z.of_nat m)).
  intros a b H Hge. lra.
Qed.

(** The fuel of the sampling loop reaches past the end of the window. *)
Lemma sampling_fuel_enough (t_start t_end : Q) :
  t_start < t_end ->
  exists n, S n = ConflictDetection.sampling_fuel t_start t_end
            /\ t_end < tick t_start n.
Proof.
  intro H. unfold ConflictDetection.sampling_fuel, TIME_RESOLUTION.
  set (x := (t_end - t_start) / 5).
  exists (S (Z.to_nat (Qfloor x))). split; [reflexivity |].
  assert (Hx : t_end - t_start == x * 5) by (unfold x; field).
  assert (H0 : (0 <= Qfloor x)%Z).
  { change 0%Z with (Qfloor 0). apply Qfloor_resp_le. lra. }
  pose proof (Qlt_floor x) as Hfl.
  rewrite tick_value, Nat2Z.inj_succ, Z2Nat.id by exact H0.
  unfold Z.succ. rewrite inject_Z_plus in *. change (inject_Z 1) with 1 in *.
  lra.
Qed.

Section Sampling.
Context {M : MathLib}.
Import ConflictDetection.

Variables (uuid4 drone_1_id drone_2_id : string) (traj_1 traj_2 : Trajectory).
Variable t_end : Q.

Lemma clear_before_shift (t : Q) (n : nat) :
  t <= t_end -> violation traj_1 traj_2 t = None ->
  clear_before traj_1 traj_2 t_end (t + TIME_RESOLUTION) n ->
  clear_before traj_1 traj_2 t_end t (S n).
Proof.
  intros Hle Hv Hc m Hm. destruct m as [| m].
  - split; assumption.
  - rewrite <- tick_shift. apply Hc. lia.
Qed.

(** What the sampling loop returns, by cases. *)
Lemma sample_cases (fuel : nat) :
  forall t,
    match sample fuel uuid4 drone_1_id drone_2_id traj_1 traj_2 t_end t with
    | None => clear_before traj_1 traj_2 t_end t fuel
    | Some None =>
        exists n, (n < fuel)%nat /\ t_end < tick t n /\ clear_before traj_1 traj_2 t_end t n
    | Some (Some alert) =>
        exists n pos_1 horizontal_dist vertical_dist,
          (n < fuel)%nat
          /\ tick t n <= t_end
          /\ violation traj_1 traj_2 (tick t n)
             = Some (pos_1, horizontal_dist, vertical_dist)
          /\ clear_before traj_1 traj_2 t_end t n
          /\ alert = alert_at uuid4 drone_1_id drone_2_id (tick t n) pos_1
                       horizontal_dist vertical_dist
    end.
Proof.
  induction fuel as [| fuel IH]; intro t; simpl.
  - intros m Hm. lia.
  - destruct (Qleb t t_end) eqn:Hle.
    + apply Qleb_le in Hle.
      destruct (violation traj_1 traj_2 t) as [[[pos_1 hd] vd] |] eqn:Hv.
      * exists 0%nat, pos_1, hd, vd. cbn [tick].
        split; [lia |]. split; [exact Hle |]. split; [exact Hv |].
        split; [| reflexivity]. intros m Hm. lia.
      * specialize (IH (t + TIME_RESOLUTION)).
        destruct (sample fuel uuid4 drone_1_id drone_2_id traj_1 traj_2 t_end
                    (t + TIME_RESOLUTION)) as [[alert |] |].
        -- destruct IH as (n & pos_1 & hd & vd & Hn & Ht & Hvn & Hc & Ha).
           exists (S n), pos_1, hd, vd. rewrite <- !tick_shift.
           split; [lia |]. split; [exact Ht |]. split; [exact Hvn |].
           split; [| exact Ha]. apply clear_before_shift; assumption.
        -- destruct IH as (n & Hn & Ht & Hc).
           exists (S n). rewrite <- tick_shift.
           split; [lia |]. split; [exact Ht |].
           apply clear_before_shift; assumption.
        -- apply clear_before_shift; assumption.
    + apply Qleb_gt in Hle. exists 0%nat. cbn [tick].
      split; [lia |]. split; [exact Hle |]. intros m Hm. lia.
Qed.

End Sampling.

Section Detection.
Context {M : MathLib}.
Import ConflictDetection.

Lemma violation_some (traj_1 traj_2 : Trajectory) (time : Q)
    (pos_1 : Position4D) (hd : Q) :
  separation_violated traj_1 traj_2 time pos_1 hd
  <-> exists vd, violation traj_1 traj_2 time = Some (pos_1, hd, vd).
Proof.
  unfold separation_violated, violation. split.
  - intros (pos_2 & H1 & H2 & Hh & Hlt & Hv). rewrite H1, H2, <- Hh.
    apply Qltb_lt in Hlt, Hv. rewrite Hlt, Hv. simpl.
    eexists. reflexivity.
  - intros (vd & H).
    destruct (interpolate_position traj_1 time) as [p1 |]; [| discriminate].
    destruct (interpolate_position traj_2 time) as [p2 |]; [| discriminate].
    match type of H with
    | (if ?a && ?b then _ else _) = _ =>
        destruct a eqn:Ea; destruct b eqn:Eb; simpl in H; try discriminate
    end.
    injection H as <- <- <-. exists p2.
    apply Qltb_lt in Ea, Eb. repeat split; assumption.
Qed.

Lemma violation_none (traj_1 traj_2 : Trajectory) (time : Q) :
  violation traj_1 traj_2 time = None
  <-> forall pos_1 hd, ~ separation_violated traj_1 traj_2 time pos_1 hd.
Proof.
  split.
  - intros H pos_1 hd Hs. apply violation_some in Hs.
    destruct Hs as (vd & Hs). rewrite H in Hs. discriminate.
  - intro H. destruct (violation traj_1 traj_2 time) as [[[p hd] vd] |] eqn:E;
      [| reflexivity].
    exfalso. apply (H p hd). apply violation_some. exists vd. exact E.
Qed.

Lemma assess_severity_cases (horizontal_dist vertical_dist : Q) :
  (horizontal_dist < HORIZONTAL_SEPARATION / 2 ->
   assess_severity horizontal_dist vertical_dist = "critical")
  /\ (HORIZONTAL_SEPARATION / 2 <= horizontal_dist ->
      horizontal_dist < HORIZONTAL_SEPARATION * 0.75 ->
      assess_severity horizontal_dist vertical_dist = "warning")
  /\ (HORIZONTAL_SEPARATION * 0.75 <= horizontal_dist ->
      assess_severity horizontal_dist vertical_dist = "minor").
Proof.
  unfold assess_severity. repeat split.
  - intro H. apply Qltb_lt in H. rewrite H. reflexivity.
  - intros H1 H2. apply Qltb_ge in H1. apply Qltb_lt in H2.
    rewrite H1, H2. reflexivity.
  - intro H.
    assert (H' : HORIZONTAL_SEPARATION / 2 <= horizontal_dist).
    { eapply Qle_trans; [| exact H]. unfold HORIZONTAL_SEPARATION.
      unfold Qle. simpl. lia. }
    apply Qltb_ge in H, H'. rewrite H, H'. reflexivity.
Qed.

(** The sampling loop over a non-empty window: it returns the alert of the
    first tick with a violation, or null when no tick of the window has
    one; it does not run out of fuel. *)
Lemma sample_window (uuid4 drone_1_id drone_2_id : string)
    (traj_1 traj_2 : Trajectory) (t_start t_end : Q) :
  t_start < t_end ->
  (exists n pos_1 hd vd,
     tick t_start n <= t_end
     /\ violation traj_1 traj_2 (tick t_start n) = Some (pos_1, hd, vd)
     /\ (forall m, (m < n)%nat ->
           violation traj_1 traj_2 (tick t_start m) = None)
     /\ sample (sampling_fuel t_start t_end) uuid4 drone_1_id drone_2_id
          traj_1 traj_2 t_end t_start
        = Some (Some (alert_at uuid4 drone_1_id drone_2_id (tick t_start n)
                        pos_1 hd vd)))
  \/ ((forall n, tick t_start n <= t_end ->
         violation traj_1 traj_2 (tick t_start n) = None)
      /\ sample (sampling_fuel t_start t_end) uuid4 drone_1_id drone_2_id
           traj_1 traj_2 t_end t_start
         = Some None).
Proof.
  intro Hlt. destruct (sampling_fuel_enough _ _ Hlt) as (N & HN & Hpast).
  rewrite <- HN.
  pose proof (sample_cases uuid4 drone_1_id drone_2_id traj_1 traj_2 t_end
                (S N) t_start) as H.
  destruct (sample (S N) uuid4 drone_1_id drone_2_id traj_1 traj_2 t_end
              t_start) as [[alert |] |].
  - left. destruct H as (n & pos_1 & hd & vd & _ & Ht & Hv & Hc & Ha).
    exists n, pos_1, hd, vd. subst alert.
    split; [exact Ht |]. split; [exact Hv |]. split; [| reflexivity].
    intros m Hm. apply Hc. exact Hm.
  - right. destruct H as (n & _ & Ht & Hc). split; [| reflexivity].
    intros m Hm. apply Hc. apply (tick_lt t_start).
    eapply Qle_lt_trans; eassumption.
  - exfalso. destruct (H N) as (Hle & _); [lia |].
    apply (Qlt_irrefl t_end). eapply Qlt_le_trans; eassumption.
Qed.

End Detection.




(* ------------------------------------------------------------------ *)
(** ** The fuel of the heap loops *)

Section HeapFuel.
Context {A : Type} (lt : A -> A -> bool).
Import Heapq.

Lemma parentpos_lt (pos : nat) : (0 < pos -> Nat.shiftr (pos - 1) 1 < pos)%nat.
Proof.
  intro H. rewrite Nat.shiftr_div_pow2. change (2 ^ 1)%nat with 2%nat.
  apply Nat.le_lt_trans with (pos - 1)%nat; [| lia].
  apply Nat.Div0.div_le_upper_bound. lia.
Qed.

(** [_siftdown] leaves its loop within [pos] iterations: more fuel changes
    nothing. *)
Lemma siftdown_loop_enough (fuel : nat) :
  forall heap startpos pos newitem,
    (pos <= fuel)%nat ->
    siftdown_loop lt (S fuel) heap startpos pos newitem
    = siftdown_loop lt fuel heap startpos pos newitem.
Proof.
  induction fuel as [| fuel IH]; intros heap startpos pos newitem Hpos.
  - assert (pos = 0)%nat by lia. subst pos. simpl.
    destruct startpos; reflexivity.
  - cbn [siftdown_loop].
    destruct (startpos <? pos)%nat eqn:E; [| reflexivity].
    destruct (lt newitem (nth (Nat.shiftr (pos - 1) 1) heap newitem));
      [| reflexivity].
    apply Nat.ltb_lt in E.
    rewrite <- (IH (list_set heap pos
                      (nth (Nat.shiftr (pos - 1) 1) heap newitem))).
    + reflexivity.
    + pose proof (parentpos_lt pos). lia.
Qed.

Lemma siftup_loop_step (fuel : nat) (heap : list A) (endpos pos : nat)
    (newitem : A) :
  siftup_loop lt (S fuel) heap endpos pos newitem
  = if (2 * pos + 1 <? endpos)%nat then
      let childpos :=
        if (2 * pos + 1 + 1 <? endpos)%nat
           && negb (lt (nth (2 * pos + 1) heap newitem)
                       (nth (2 * pos + 1 + 1) heap newitem))
        then (2 * pos + 1 + 1)%nat else (2 * pos + 1)%nat in
      siftup_loop lt fuel (list_set heap pos (nth childpos heap newitem))
        endpos childpos newitem
    else (heap, pos).
Proof. reflexivity. Qed.

(** [_siftup] leaves its loop within [endpos - pos] iterations. *)
Lemma siftup_loop_enough (fuel : nat) :
  forall heap endpos pos newitem,
    (endpos <= pos + fuel)%nat ->
    siftup_loop lt (S fuel) heap endpos pos newitem
    = siftup_loop lt fuel heap endpos pos newitem.
Proof.
  induction fuel as [| fuel IH]; intros heap endpos pos newitem Hpos.
  - rewrite siftup_loop_step.
    destruct (2 * pos + 1 <? endpos)%nat eqn:E; [| reflexivity].
    apply Nat.ltb_lt in E. lia.
  - rewrite (siftup_loop_step fuel heap endpos pos newitem).
    rewrite (siftup_loop_step (S fuel) heap endpos pos newitem).
    destruct (2 * pos + 1 <? endpos)%nat eqn:E; [| reflexivity].
    apply Nat.ltb_lt in E. cbv zeta.
    destruct ((2 * pos + 1 + 1 <? endpos)%nat
              && negb (lt (nth (2 * pos + 1) heap newitem)
                          (nth (2 * pos + 1 + 1) heap newitem)));
      apply IH; lia.
Qed.

End HeapFuel.

(** Two decimal values half-way between multiples of [1/10000], which no
    pair of binary floats can be: the rounded tuples are equal and
    [__eq__] fails.  This is why [node_identity_rounded_tuple] speaks of
    floating-point coordinates. *)
Lemma same_node_decimal_tie :
  let a := Pathfinding.mkNode (-0.00005) 0 50 0 None 0 0 0 in
  let b := Pathfinding.mkNode 0.00005 0 50 0 None 0 0 0 in
  Pathfinding.key_eqb (Pathfinding.hash_key a) (Pathfinding.hash_key b) = true
  /\ Pathfinding.node_eq a b = false
  /\ Pathfinding.same_node a b = false.
Proof. repeat split. Qed.

(* ------------------------------------------------------------------ *)
(** ** The heap keeps its elements *)

Section HeapPermutation.
Context {A : Type} (lt : A -> A -> bool).
Import Heapq.

Lemma length_list_set (heap : list A) :
  forall i x, List.length (list_set heap i x) = List.length heap.
Proof.
  induction heap as [| y tl IH]; intros [| i] x; simpl; try reflexivity.
  rewrite IH. reflexivity.
Qed.

Lemma list_set_twice (heap : list A) :
  forall i x y, list_set (list_set heap i x) i y = list_set heap i y.
Proof.
  induction heap as [| z tl IH]; intros [| i] x y; simpl; try reflexivity.
  rewrite IH. reflexivity.
Qed.

Lemma list_set_same (heap : list A) :
  forall i d, list_set heap i (nth i heap d) = heap.
Proof.
  induction heap as [| z tl IH]; intros [| i] d; simpl; try reflexivity.
  rewrite IH. reflexivity.
Qed.

Lemma nth_list_set_eq (heap : list A) :
  forall i x d, (i < List.length heap)%nat -> nth i (list_set heap i x) d = x.
Proof.
  induction heap as [| z tl IH]; intros [| i] x d H; simpl in *; try lia.
  - reflexivity.
  - apply IH. lia.
Qed.

Lemma nth_list_set_ne (heap : list A) :
  forall i j x d, i <> j -> nth j (list_set heap i x) d = nth j heap d.
Proof.
  induction heap as [| z tl IH]; intros [| i] [| j] x d H; simpl;
    try reflexivity; try contradiction.
  apply IH. congruence.
Qed.

Lemma move_to_front (heap : list A) :
  forall j a d,
    (j < List.length heap)%nat ->
    Permutation (nth j heap d :: list_set heap j a) (a :: heap).
Proof.
  induction heap as [| b tl IH]; intros [| j] a d H; simpl in *; try lia.
  - apply perm_swap.
  - eapply perm_trans; [apply perm_swap |].
    eapply perm_trans; [apply perm_skip, IH; lia |]. apply perm_swap.
Qed.

(** Exchanging two elements of a list. *)
Lemma swap_permutation (heap : list A) :
  forall i j d,
    (i < List.length heap)%nat -> (j < List.length heap)%nat ->
    Permutation (list_set (list_set heap i (nth j heap d)) j (nth i heap d))
      heap.
Proof.
  induction heap as [| a tl IH]; intros [| i] [| j] d Hi Hj; simpl in *;
    try lia.
  - apply Permutation_refl.
  - apply move_to_front. lia.
  - apply move_to_front. lia.
  - apply perm_skip. apply IH; lia.
Qed.

(** Moving the hole of a sift from [pos] to [pos']. *)
Lemma hole_moves (heap : list A) (pos pos' : nat) (newitem : A) :
  (pos < List.length heap)%nat -> (pos' < List.length heap)%nat ->
  pos' <> pos ->
  Permutation
    (list_set (list_set heap pos (nth pos' heap newitem)) pos' newitem)
    (list_set heap pos newitem).
Proof.
  intros Hp Hp' Hne.
  pose proof (swap_permutation (list_set heap pos newitem) pos pos' newitem)
    as H.
  rewrite length_list_set in H. specialize (H Hp Hp').
  rewrite (nth_list_set_eq heap pos newitem newitem Hp) in H.
  rewrite (nth_list_set_ne heap pos pos' newitem newitem) in H by congruence.
  rewrite list_set_twice in H. exact H.
Qed.

Lemma siftdown_loop_permutation (fuel : nat) :
  forall heap startpos pos newitem,
    (pos < List.length heap)%nat ->
    Permutation (siftdown_loop lt fuel heap startpos pos newitem)
      (list_set heap pos newitem).
Proof.
  induction fuel as [| fuel IH]; intros heap startpos pos newitem Hpos;
    cbn [siftdown_loop].
  - apply Permutation_refl.
  - destruct (startpos <? pos)%nat eqn:E; [| apply Permutation_refl].
    destruct (lt newitem (nth (Nat.shiftr (pos - 1) 1) heap newitem));
      [| apply Permutation_refl].
    apply Nat.ltb_lt in E.
    assert (Hlt : (Nat.shiftr (pos - 1) 1 < pos)%nat)
      by (apply parentpos_lt; lia).
    eapply perm_trans.
    + apply IH. rewrite length_list_set. lia.
    + apply hole_moves; lia.
Qed.

Lemma siftdown_permutation (heap : list A) (startpos pos : nat) :
  Permutation (siftdown lt heap startpos pos) heap.
Proof.
  unfold siftdown. destruct (nth_error heap pos) as [x |] eqn:E;
    [| apply Permutation_refl].
  assert (Hpos : (pos < List.length heap)%nat)
    by (apply nth_error_Some; rewrite E; discriminate).
  eapply perm_trans; [apply siftdown_loop_permutation; exact Hpos |].
  rewrite <- (list_set_same heap pos x) at 2.
  rewrite (nth_error_nth heap pos x E). apply Permutation_refl.
Qed.

Lemma siftup_loop_permutation (fuel : nat) :
  forall heap pos newitem heap' pos',
    (pos < List.length heap)%nat ->
    siftup_loop lt fuel heap (List.length heap) pos newitem = (heap', pos') ->
    Permutation (list_set heap' pos' newitem) (list_set heap pos newitem)
    /\ List.length heap' = List.length heap.
Proof.
  induction fuel as [| fuel IH]; intros heap pos newitem heap' pos' Hpos H.
  - injection H as <- <-. split; [apply Permutation_refl | reflexivity].
  - rewrite siftup_loop_step in H.
    destruct (2 * pos + 1 <? List.length heap)%nat eqn:E.
    + apply Nat.ltb_lt in E. cbv zeta in H.
      set (childpos :=
             if (2 * pos + 1 + 1 <? List.length heap)%nat
                && negb (lt (nth (2 * pos + 1) heap newitem)
                            (nth (2 * pos + 1 + 1) heap newitem))
             then (2 * pos + 1 + 1)%nat else (2 * pos + 1)%nat) in *.
      assert (Hc : (childpos < List.length heap /\ childpos <> pos)%nat).
      { unfold childpos.
        destruct (2 * pos + 1 + 1 <? List.length heap)%nat eqn:E2; simpl.
        - apply Nat.ltb_lt in E2.
          destruct (negb _); split; lia.
        - split; lia. }
      destruct Hc as (Hc & Hne).
      rewrite <- (length_list_set heap pos (nth childpos heap newitem)) in H.
      apply IH in H; [| rewrite length_list_set; exact Hc].
      destruct H as (Hperm & Hlen). rewrite length_list_set in Hlen.
      split; [| exact Hlen].
      eapply perm_trans; [exact Hperm |]. apply hole_moves; assumption.
    + injection H as <- <-. split; [apply Permutation_refl | reflexivity].
Qed.

Lemma siftup_permutation (heap : list A) (pos : nat) :
  Permutation (siftup lt heap pos) heap.
Proof.
  unfold siftup. destruct (nth_error heap pos) as [x |] eqn:E;
    [| apply Permutation_refl].
  assert (Hpos : (pos < List.length heap)%nat)
    by (apply nth_error_Some; rewrite E; discriminate).
  destruct (siftup_loop lt (List.length heap) heap (List.length heap) pos x)
    as [heap' pos'] eqn:Eloop.
  apply siftup_loop_permutation in Eloop; [| exact Hpos].
  destruct Eloop as (Hperm & _).
  eapply perm_trans; [apply siftdown_permutation |].
  eapply perm_trans; [exact Hperm |].
  rewrite <- (list_set_same heap pos x) at 2.
  rewrite (nth_error_nth heap pos x E). apply Permutation_refl.
Qed.

(** [heappush] adds the item and nothing else. *)
Lemma heappush_permutation (heap : list A) (item : A) :
  Permutation (heappush lt heap item) (item :: heap).
Proof.
  unfold heappush. eapply perm_trans; [apply siftdown_permutation |].
  apply Permutation_sym, Permutation_cons_append.
Qed.

(** [heappop] removes the item it returns and nothing else. *)
Lemma heappop_permutation (heap heap' : list A) (x : A) :
  heappop lt heap = Some (x, heap') -> Permutation heap (x :: heap').
Proof.
  unfold heappop. intro H.
  destruct (rev heap) as [| lastelt rest_rev] eqn:E; [discriminate |].
  apply (f_equal (@rev A)) in E. rewrite rev_involutive in E. simpl in E.
  destruct (rev rest_rev) as [| returnitem tl].
  - injection H as <- <-. subst heap. apply Permutation_refl.
  - injection H as <- <-. subst heap. simpl.
    apply perm_skip.
    eapply perm_trans; [apply Permutation_sym, Permutation_cons_append |].
    apply Permutation_sym, siftup_permutation.
Qed.

End HeapPermutation.
